(** * ToastWindow: stacking, lifecycle and state hand-off of the toast notifier

    A shallow embedding of [src/ToastWindow.cpp].  Process-wide variables of
    the C++ program become fields of explicit state records, calls into the
    window system become either reads of an explicit snapshot of that system
    or entries of an effect log, and the temporary-file area becomes a finite
    map from paths to file contents. *)

From Stdlib Require Import ZArith Lia List Ascii String Bool.
From stdpp Require Import base list gmap sorting.

Local Open Scope Z_scope.

(** ** Machine integers

    [int] and [LONG] are 32-bit two's complement; the arithmetic below is the
    mathematical operation followed by the wrap-around. *)

Definition wrap32 (z : Z) : Z := (z + 2147483648) mod 4294967296 - 2147483648.

Definition int_range (z : Z) : Prop := -2147483648 <= z <= 2147483647.

Definition int_add (a b : Z) : Z := wrap32 (a + b).
Definition int_sub (a b : Z) : Z := wrap32 (a - b).
Definition int_mul (a b : Z) : Z := wrap32 (a * b).
(** C++ division truncates toward zero. *)
Definition int_div (a b : Z) : Z := wrap32 (Z.quot a b).
Definition int_abs (a : Z) : Z := wrap32 (Z.abs a).

(** Coordinates for which none of the geometry computations of the source
    can overflow its 32-bit integers; the coordinates of a screen are far
    inside this range. *)
Definition coord_ok (y : Z) : Prop := -536870912 < y < 536870912.

(** ** Wide strings *)

Definition wchar_t := N.
Definition wstring := list N.

(** [L s] is the wide literal [L"s"]. *)
Definition L (s : string) : wstring := map N_of_ascii (list_ascii_of_string s).

Definition WLF : wchar_t := 10%N.
Definition WCR : wchar_t := 13%N.
Definition WSPACE : wchar_t := 32%N.

(** A [std::wstring] read through a <<wchar_t*>> ends at its first NUL. *)
Fixpoint c_str (s : wstring) : wstring :=
  match s with
  | [] => []
  | c :: s' => if (c =? 0)%N then [] else c :: c_str s'
  end.

Definition is_eol (c : wchar_t) : bool := (c =? WLF)%N || (c =? WCR)%N.

(** <<while (len > 0 && (line[len-1] == L'\n' || line[len-1] == L'\r')) line[--len] = 0>> *)
Fixpoint strip_eol (line : wstring) : wstring :=
  match line with
  | [] => []
  | c :: rest =>
    match strip_eol rest with
    | [] => if is_eol c then [] else [c]
    | rest' => c :: rest'
    end
  end.

(** *** Decimal text of a 64-bit integer *)

Fixpoint digits_of (fuel : nat) (n : Z) (acc : wstring) : wstring :=
  match fuel with
  | O => acc
  | S fuel' =>
    let acc' := Z.to_N (48 + n mod 10) :: acc in
    if n <? 10 then acc' else digits_of fuel' (n / 10) acc'
  end.

(** <<%lld>> *)
Definition print_lld (v : Z) : wstring :=
  if v <? 0 then 45%N :: digits_of 20 (- v) [] else digits_of 20 v [].

Definition iswspace (c : wchar_t) : bool :=
  (c =? 32)%N || ((9 <=? c)%N && (c <=? 13)%N).
Definition iswdigit (c : wchar_t) : bool := (48 <=? c)%N && (c <=? 57)%N.

Fixpoint skip_space (s : wstring) : wstring :=
  match s with
  | c :: s' => if iswspace c then skip_space s' else s
  | [] => []
  end.

Fixpoint wtoi_digits (s : wstring) (acc : Z) : Z :=
  match s with
  | c :: s' => if iswdigit c then wtoi_digits s' (acc * 10 + (Z.of_N c - 48)) else acc
  | [] => acc
  end.

Definition clamp64 (z : Z) : Z :=
  Z.max (-9223372036854775808) (Z.min 9223372036854775807 z).

(** [_wtoi64] of the C runtime: leading white space, an optional sign, then
    decimal digits up to the first other character; out-of-range values
    saturate. *)
Definition _wtoi64 (s : wstring) : Z :=
  match skip_space s with
  | c :: d =>
    if (c =? 45)%N then clamp64 (- wtoi_digits d 0)
    else if (c =? 43)%N then clamp64 (wtoi_digits d 0)
    else clamp64 (wtoi_digits (c :: d) 0)
  | [] => 0
  end.

(** *** Text streams

    A file is the sequence of wide characters a text-mode stream delivers. *)

Fixpoint read_line (k : nat) (f : wstring) : wstring * wstring :=
  match k, f with
  | O, _ => ([], f)
  | _, [] => ([], [])
  | S k', c :: f' =>
    if (c =? WLF)%N then ([c], f')
    else let r := read_line k' f' in (c :: r.1, r.2)
  end.

(** [fgetws n f]: at most [n-1] characters, through the first newline;
    [None] at end of file.  The second component is what is left to read. *)
Definition fgetws (n : nat) (f : wstring) : option (wstring * wstring) :=
  match f with
  | [] => None
  | _ => Some (read_line (n - 1) f)
  end.

(** ** Window system data *)

Definition HWND := Z.

Record RECT := mkRECT { left : Z; top : Z; right : Z; bottom : Z }.

(** <<uEdge>> values of <<APPBARDATA>>. *)
Definition ABE_LEFT : Z := 0.
Definition ABE_TOP : Z := 1.
Definition ABE_RIGHT : Z := 2.
Definition ABE_BOTTOM : Z := 3.

(** One top-level window as [EnumWindows] and the queries on its handle
    report it. *)
Record Window := mkWindow {
  w_hwnd : HWND;
  w_class : wstring;
  w_visible : bool;
  w_rect : RECT
}.

Record ToastInfo := mkToastInfo { hwnd : HWND; rect : RECT }.

(** ** Global configuration *)

Definition g_windowWidth : Z := 300.
Definition g_windowHeight : Z := 80.
Definition g_displayMs : Z := 3000.
Definition g_fadeMs : Z := 1000.
Definition INITIAL_ALPHA : Z := 230.

Definition TIMER_FADE : Z := 1.
Definition TIMER_START_FADE : Z := 2.
Definition TIMER_REPOSITION : Z := 3.
Definition TIMER_CHECK_BOTTOM : Z := 4.

Definition CLOSE_BUTTON_SIZE : Z := 20.
Definition CLOSE_BUTTON_MARGIN : Z := 6.
(** The multiplication sign drawn as the close button. *)
Definition CLOSE_GLYPH : list N := [215%N].

Definition TOAST_CLASS_NAME : wstring := L "ClaudeCodeToast".

Definition WM_USER : Z := 1024.
Definition WM_TOAST_CLOSING : Z := WM_USER + 100.
Definition WM_TOAST_CHECK_POSITION : Z := WM_USER + 101.
Definition WM_TOAST_PAUSE_TIMER : Z := WM_USER + 102.

(** ** Toast stacking *)

(** [EnumToastWindows]: the callback keeps a window when it is not ours, its
    class name (read into a 64-character buffer) is the toast class and it is
    visible. *)
Definition EnumToastWindows (g_hwnd : HWND) (w : Window) : option ToastInfo :=
  if decide (w_hwnd w = g_hwnd) then None
  else
    let className := take 63 (w_class w) in
    if (0 <? Z.of_nat (length className)) then
      if bool_decide (className = TOAST_CLASS_NAME) && w_visible w
      then Some (mkToastInfo (w_hwnd w) (w_rect w))
      else None
    else None.

(** The two comparators handed to [std::sort]. *)
Definition top_first (a b : ToastInfo) : Prop := top (rect a) < top (rect b).
Definition bottom_first (a b : ToastInfo) : Prop := bottom (rect a) > bottom (rect b).

#[global] Instance top_first_dec : RelDecision top_first.
Proof. intros a b. unfold top_first. apply _. Defined.
#[global] Instance bottom_first_dec : RelDecision bottom_first.
Proof. intros a b. unfold bottom_first. apply _. Defined.

(** [GetOtherToasts]: every other visible toast window, toward-taskbar first. *)
Definition GetOtherToasts (g_taskbarEdge : Z) (g_hwnd : HWND)
    (windows : list Window) : list ToastInfo :=
  let g_otherToasts := omap (EnumToastWindows g_hwnd) windows in
  if g_taskbarEdge =? ABE_TOP
  then merge_sort top_first g_otherToasts
  else merge_sort bottom_first g_otherToasts.

Definition GetBaseY (g_taskbarEdge : Z) (g_workArea : RECT) : Z :=
  if g_taskbarEdge =? ABE_TOP then top g_workArea
  else int_sub (bottom g_workArea) g_windowHeight.

Definition CalculateStackedY (g_taskbarEdge : Z) (g_workArea : RECT)
    (toasts : list ToastInfo) : Z :=
  match toasts with
  | [] => GetBaseY g_taskbarEdge g_workArea
  | _ =>
    if g_taskbarEdge =? ABE_TOP then
      fold_left (fun lowestBottom t =>
                   if lowestBottom <? bottom (rect t) then bottom (rect t)
                   else lowestBottom)
                toasts (top g_workArea)
    else
      let highestTop :=
        fold_left (fun highestTop t =>
                     if top (rect t) <? highestTop then top (rect t)
                     else highestTop)
                  toasts (bottom g_workArea) in
      int_sub highestTop g_windowHeight
  end.

Definition IsBottomToast (g_taskbarEdge : Z) (toasts : list ToastInfo)
    (myRect : RECT) : bool :=
  match toasts with
  | [] => true
  | _ =>
    if g_taskbarEdge =? ABE_TOP
    then forallb (fun t => negb (top (rect t) <? top myRect)) toasts
    else forallb (fun t => negb (bottom myRect <? bottom (rect t))) toasts
  end.

(** ** Process-wide state

    The variables written before the message loop starts are the fields of
    [Globals]; the ones the window procedure changes, and the attributes of
    our own window held by the window system, are the fields of [Toast]. *)

Record Globals := mkGlobals {
  g_title : wstring;
  g_message : wstring;
  g_savedIconPath : wstring;
  g_debug : bool;
  g_inputMode : bool;
  g_immediateHwnd : HWND;
  g_hwnd : HWND;
  g_targetWindowHandle : HWND;
  g_wtWindowHandle : HWND;
  g_wtSavedRuntimeId : wstring;
  g_fadeStep : Z;
  g_workArea : RECT;
  g_taskbarEdge : Z;
  g_userPrompt : wstring;
  g_sessionId : wstring
}.

Definition set_g_title (v : wstring) (s : Globals) : Globals :=
  mkGlobals v (g_message s) (g_savedIconPath s) (g_debug s) (g_inputMode s) (g_immediateHwnd s) (g_hwnd s) (g_targetWindowHandle s) (g_wtWindowHandle s) (g_wtSavedRuntimeId s) (g_fadeStep s) (g_workArea s) (g_taskbarEdge s) (g_userPrompt s) (g_sessionId s).
Definition set_g_message (v : wstring) (s : Globals) : Globals :=
  mkGlobals (g_title s) v (g_savedIconPath s) (g_debug s) (g_inputMode s) (g_immediateHwnd s) (g_hwnd s) (g_targetWindowHandle s) (g_wtWindowHandle s) (g_wtSavedRuntimeId s) (g_fadeStep s) (g_workArea s) (g_taskbarEdge s) (g_userPrompt s) (g_sessionId s).
Definition set_g_savedIconPath (v : wstring) (s : Globals) : Globals :=
  mkGlobals (g_title s) (g_message s) v (g_debug s) (g_inputMode s) (g_immediateHwnd s) (g_hwnd s) (g_targetWindowHandle s) (g_wtWindowHandle s) (g_wtSavedRuntimeId s) (g_fadeStep s) (g_workArea s) (g_taskbarEdge s) (g_userPrompt s) (g_sessionId s).
Definition set_g_debug (v : bool) (s : Globals) : Globals :=
  mkGlobals (g_title s) (g_message s) (g_savedIconPath s) v (g_inputMode s) (g_immediateHwnd s) (g_hwnd s) (g_targetWindowHandle s) (g_wtWindowHandle s) (g_wtSavedRuntimeId s) (g_fadeStep s) (g_workArea s) (g_taskbarEdge s) (g_userPrompt s) (g_sessionId s).
Definition set_g_inputMode (v : bool) (s : Globals) : Globals :=
  mkGlobals (g_title s) (g_message s) (g_savedIconPath s) (g_debug s) v (g_immediateHwnd s) (g_hwnd s) (g_targetWindowHandle s) (g_wtWindowHandle s) (g_wtSavedRuntimeId s) (g_fadeStep s) (g_workArea s) (g_taskbarEdge s) (g_userPrompt s) (g_sessionId s).
Definition set_g_immediateHwnd (v : HWND) (s : Globals) : Globals :=
  mkGlobals (g_title s) (g_message s) (g_savedIconPath s) (g_debug s) (g_inputMode s) v (g_hwnd s) (g_targetWindowHandle s) (g_wtWindowHandle s) (g_wtSavedRuntimeId s) (g_fadeStep s) (g_workArea s) (g_taskbarEdge s) (g_userPrompt s) (g_sessionId s).
Definition set_g_hwnd (v : HWND) (s : Globals) : Globals :=
  mkGlobals (g_title s) (g_message s) (g_savedIconPath s) (g_debug s) (g_inputMode s) (g_immediateHwnd s) v (g_targetWindowHandle s) (g_wtWindowHandle s) (g_wtSavedRuntimeId s) (g_fadeStep s) (g_workArea s) (g_taskbarEdge s) (g_userPrompt s) (g_sessionId s).
Definition set_g_targetWindowHandle (v : HWND) (s : Globals) : Globals :=
  mkGlobals (g_title s) (g_message s) (g_savedIconPath s) (g_debug s) (g_inputMode s) (g_immediateHwnd s) (g_hwnd s) v (g_wtWindowHandle s) (g_wtSavedRuntimeId s) (g_fadeStep s) (g_workArea s) (g_taskbarEdge s) (g_userPrompt s) (g_sessionId s).
Definition set_g_wtWindowHandle (v : HWND) (s : Globals) : Globals :=
  mkGlobals (g_title s) (g_message s) (g_savedIconPath s) (g_debug s) (g_inputMode s) (g_immediateHwnd s) (g_hwnd s) (g_targetWindowHandle s) v (g_wtSavedRuntimeId s) (g_fadeStep s) (g_workArea s) (g_taskbarEdge s) (g_userPrompt s) (g_sessionId s).
Definition set_g_wtSavedRuntimeId (v : wstring) (s : Globals) : Globals :=
  mkGlobals (g_title s) (g_message s) (g_savedIconPath s) (g_debug s) (g_inputMode s) (g_immediateHwnd s) (g_hwnd s) (g_targetWindowHandle s) (g_wtWindowHandle s) v (g_fadeStep s) (g_workArea s) (g_taskbarEdge s) (g_userPrompt s) (g_sessionId s).
Definition set_g_fadeStep (v : Z) (s : Globals) : Globals :=
  mkGlobals (g_title s) (g_message s) (g_savedIconPath s) (g_debug s) (g_inputMode s) (g_immediateHwnd s) (g_hwnd s) (g_targetWindowHandle s) (g_wtWindowHandle s) (g_wtSavedRuntimeId s) v (g_workArea s) (g_taskbarEdge s) (g_userPrompt s) (g_sessionId s).
Definition set_g_workArea (v : RECT) (s : Globals) : Globals :=
  mkGlobals (g_title s) (g_message s) (g_savedIconPath s) (g_debug s) (g_inputMode s) (g_immediateHwnd s) (g_hwnd s) (g_targetWindowHandle s) (g_wtWindowHandle s) (g_wtSavedRuntimeId s) (g_fadeStep s) v (g_taskbarEdge s) (g_userPrompt s) (g_sessionId s).
Definition set_g_taskbarEdge (v : Z) (s : Globals) : Globals :=
  mkGlobals (g_title s) (g_message s) (g_savedIconPath s) (g_debug s) (g_inputMode s) (g_immediateHwnd s) (g_hwnd s) (g_targetWindowHandle s) (g_wtWindowHandle s) (g_wtSavedRuntimeId s) (g_fadeStep s) (g_workArea s) v (g_userPrompt s) (g_sessionId s).
Definition set_g_userPrompt (v : wstring) (s : Globals) : Globals :=
  mkGlobals (g_title s) (g_message s) (g_savedIconPath s) (g_debug s) (g_inputMode s) (g_immediateHwnd s) (g_hwnd s) (g_targetWindowHandle s) (g_wtWindowHandle s) (g_wtSavedRuntimeId s) (g_fadeStep s) (g_workArea s) (g_taskbarEdge s) v (g_sessionId s).
Definition set_g_sessionId (v : wstring) (s : Globals) : Globals :=
  mkGlobals (g_title s) (g_message s) (g_savedIconPath s) (g_debug s) (g_inputMode s) (g_immediateHwnd s) (g_hwnd s) (g_targetWindowHandle s) (g_wtWindowHandle s) (g_wtSavedRuntimeId s) (g_fadeStep s) (g_workArea s) (g_taskbarEdge s) (g_userPrompt s) v.

(** The static initialisers. *)
Definition initial_globals : Globals :=
  {| g_title := L "Claude Code"; g_message := L "Task completed";
     g_savedIconPath := []; g_debug := false; g_inputMode := false;
     g_immediateHwnd := 0; g_hwnd := 0; g_targetWindowHandle := 0;
     g_wtWindowHandle := 0; g_wtSavedRuntimeId := []; g_fadeStep := 15;
     g_workArea := mkRECT 0 0 0 0; g_taskbarEdge := ABE_BOTTOM;
     g_userPrompt := []; g_sessionId := [] |}.

Record Toast := mkToast {
  g_alpha : Z;
  g_clicked : bool;
  g_mouseInside : bool;
  g_isFading : bool;
  g_targetY : Z;
  g_isBottomToast : bool;
  (* our window and message queue, as the window system holds them *)
  win_rect : RECT;
  win_timers : gmap Z Z;
  win_alpha : Z;
  win_visible : bool;
  win_destroyed : bool;
  win_quit : bool
}.

Definition set_g_alpha (v : Z) (s : Toast) : Toast :=
  mkToast v (g_clicked s) (g_mouseInside s) (g_isFading s) (g_targetY s) (g_isBottomToast s) (win_rect s) (win_timers s) (win_alpha s) (win_visible s) (win_destroyed s) (win_quit s).
Definition set_g_clicked (v : bool) (s : Toast) : Toast :=
  mkToast (g_alpha s) v (g_mouseInside s) (g_isFading s) (g_targetY s) (g_isBottomToast s) (win_rect s) (win_timers s) (win_alpha s) (win_visible s) (win_destroyed s) (win_quit s).
Definition set_g_mouseInside (v : bool) (s : Toast) : Toast :=
  mkToast (g_alpha s) (g_clicked s) v (g_isFading s) (g_targetY s) (g_isBottomToast s) (win_rect s) (win_timers s) (win_alpha s) (win_visible s) (win_destroyed s) (win_quit s).
Definition set_g_isFading (v : bool) (s : Toast) : Toast :=
  mkToast (g_alpha s) (g_clicked s) (g_mouseInside s) v (g_targetY s) (g_isBottomToast s) (win_rect s) (win_timers s) (win_alpha s) (win_visible s) (win_destroyed s) (win_quit s).
Definition set_g_targetY (v : Z) (s : Toast) : Toast :=
  mkToast (g_alpha s) (g_clicked s) (g_mouseInside s) (g_isFading s) v (g_isBottomToast s) (win_rect s) (win_timers s) (win_alpha s) (win_visible s) (win_destroyed s) (win_quit s).
Definition set_g_isBottomToast (v : bool) (s : Toast) : Toast :=
  mkToast (g_alpha s) (g_clicked s) (g_mouseInside s) (g_isFading s) (g_targetY s) v (win_rect s) (win_timers s) (win_alpha s) (win_visible s) (win_destroyed s) (win_quit s).
Definition set_win_rect (v : RECT) (s : Toast) : Toast :=
  mkToast (g_alpha s) (g_clicked s) (g_mouseInside s) (g_isFading s) (g_targetY s) (g_isBottomToast s) v (win_timers s) (win_alpha s) (win_visible s) (win_destroyed s) (win_quit s).
Definition set_win_timers (v : gmap Z Z) (s : Toast) : Toast :=
  mkToast (g_alpha s) (g_clicked s) (g_mouseInside s) (g_isFading s) (g_targetY s) (g_isBottomToast s) (win_rect s) v (win_alpha s) (win_visible s) (win_destroyed s) (win_quit s).
Definition set_win_alpha (v : Z) (s : Toast) : Toast :=
  mkToast (g_alpha s) (g_clicked s) (g_mouseInside s) (g_isFading s) (g_targetY s) (g_isBottomToast s) (win_rect s) (win_timers s) v (win_visible s) (win_destroyed s) (win_quit s).
Definition set_win_visible (v : bool) (s : Toast) : Toast :=
  mkToast (g_alpha s) (g_clicked s) (g_mouseInside s) (g_isFading s) (g_targetY s) (g_isBottomToast s) (win_rect s) (win_timers s) (win_alpha s) v (win_destroyed s) (win_quit s).
Definition set_win_destroyed (v : bool) (s : Toast) : Toast :=
  mkToast (g_alpha s) (g_clicked s) (g_mouseInside s) (g_isFading s) (g_targetY s) (g_isBottomToast s) (win_rect s) (win_timers s) (win_alpha s) (win_visible s) v (win_quit s).
Definition set_win_quit (v : bool) (s : Toast) : Toast :=
  mkToast (g_alpha s) (g_clicked s) (g_mouseInside s) (g_isFading s) (g_targetY s) (g_isBottomToast s) (win_rect s) (win_timers s) (win_alpha s) (win_visible s) (win_destroyed s) v.

(** One tab of a terminal window as UI Automation reports it. *)
Record Tab := mkTab {
  tab_runtimeId : wstring;        (* GetRuntimeIdString *)
  tab_pattern : bool;             (* the selection-item pattern is available *)
  tab_selected : bool             (* get_CurrentIsSelected *)
}.

(** A snapshot of what the operating system answers. *)
Record System := mkSystem {
  windows : list Window;                    (* EnumWindows *)
  IsWindow : HWND -> bool;
  IsIconic : HWND -> bool;
  IsWindowsTerminalWindow : HWND -> bool;
  GetForegroundWindow : HWND;
  uia_tabs : HWND -> option (list Tab);     (* FindAll of the tab items, when UI Automation works *)
  FindCallerExePath : wstring;
  GetTempPathW : wstring;
  wfopen_w : wstring -> bool;               (* may this path be opened for writing *)
  MultiByteToWideChar : list N -> option wstring;  (* UTF-8 to UTF-16, None on failure *)
  GetModuleFileNameW : wstring;
  monitor_rcWork : RECT;                    (* work area of the monitor under the cursor *)
  taskbar_uEdge : option Z;                 (* SHAppBarMessage(ABM_GETTASKBARPOS) *)
  CreateWindowExW : HWND                    (* the new handle, or NULL *)
}.

(** Calls that leave the process, in program order. *)
Inductive Effect :=
| PostMessage (to : HWND) (msg : Z) (wParam : Z) (lParam : Z)
| ShowWindow (h : HWND) (nCmdShow : Z)
| AllowSetForegroundWindow
| TryAltKeyTrick
| AttachThreadInput (window_thread : HWND) (fAttach : bool)
| SetWindowPos_TOP (h : HWND)
| BringWindowToTop (h : HWND)
| SwitchToThisWindow (h : HWND)
| SetForegroundWindow (h : HWND)
| Select (h : HWND) (runtimeId : wstring)
| TrackMouseEvent
| PostQuitMessage
| DrawTextW (text : wstring)
| CreateProcessW (cmdLine : wstring).

(** Window procedures run in a state monad over [Toast] that also logs the
    outgoing calls. *)
Definition Act (A : Type) : Type := Toast -> A * Toast * list Effect.

#[global] Instance Act_ret : MRet Act := fun A x st => (x, st, []).
#[global] Instance Act_bind : MBind Act := fun A B f m st =>
  let r := m st in
  let r' := f (r.1.1) (r.1.2) in
  (r'.1.1, r'.1.2, r.2 ++ r'.2).

Definition gets {A} (f : Toast -> A) : Act A := fun st => (f st, st, []).
Definition modify (f : Toast -> Toast) : Act unit := fun st => (tt, f st, []).
Definition emit (e : Effect) : Act unit := fun st => (tt, st, [e]).
Definition skip : Act unit := mret tt.
Definition when (b : bool) (a : Act unit) : Act unit := if b then a else skip.

Definition SW_HIDE : Z := 0.
Definition SW_SHOWNOACTIVATE : Z := 4.
Definition SW_RESTORE : Z := 9.

Definition KillTimer (id : Z) : Act unit :=
  modify (fun s => set_win_timers (delete id (win_timers s)) s).
Definition SetTimer (id ms : Z) : Act unit :=
  modify (fun s => set_win_timers (<[id := ms]> (win_timers s)) s).
Definition SetLayeredWindowAttributes (alpha : Z) : Act unit :=
  modify (set_win_alpha alpha).
(** [SetWindowPos] with <<SWP_NOSIZE>>: the rectangle moves, its size stays. *)
Definition SetWindowPos (x y : Z) : Act unit :=
  modify (fun s =>
    let r := win_rect s in
    set_win_rect (mkRECT x y (x + (right r - left r)) (y + (bottom r - top r))) s).
(** [DestroyWindow] delivers <<WM_DESTROY>>, whose handler posts the quit
    message. *)
Definition DestroyWindow : Act unit :=
  modify (fun s => set_win_destroyed true (set_win_visible false s)) ;;
  modify (set_win_quit true) ;; emit PostQuitMessage.
Definition HideWindow (g : Globals) : Act unit :=
  modify (set_win_visible false) ;; emit (ShowWindow (g_hwnd g) SW_HIDE).

Definition OtherToasts (g : Globals) (sys : System) : list ToastInfo :=
  GetOtherToasts (g_taskbarEdge g) (g_hwnd g) (windows sys).

(** <<(WPARAM)v>> of a signed value and <<(int)wParam>> back. *)
Definition to_WPARAM (v : Z) : Z := v mod 18446744073709551616.

Definition NotifyOtherToastsClosing (g : Globals) (sys : System) : Act unit :=
  myRect ← gets win_rect ;
  fold_right (fun t k => emit (PostMessage (hwnd t) WM_TOAST_CHECK_POSITION
                                           (to_WPARAM (top myRect)) 0) ;; k)
             skip (OtherToasts g sys).

Definition NotifyAllToastsPauseTimer (g : Globals) (sys : System) (pause : bool) : Act unit :=
  emit (PostMessage (g_hwnd g) WM_TOAST_PAUSE_TIMER (if pause then 1 else 0) 0) ;;
  fold_right (fun t k => emit (PostMessage (hwnd t) WM_TOAST_PAUSE_TIMER
                                           (if pause then 1 else 0) 0) ;; k)
             skip (OtherToasts g sys).

Definition AnimateToPosition : Act unit :=
  rect ← gets win_rect ;
  g_targetY ← gets g_targetY ;
  let currentY := top rect in
  if currentY =? g_targetY then KillTimer TIMER_REPOSITION
  else
    let diff := int_sub g_targetY currentY in
    let step := int_div (int_mul diff 2) 5 in
    let step := if step =? 0 then (if 0 <? diff then 2 else -2) else step in
    let newY := int_add currentY step in
    let newY := if int_abs (int_sub g_targetY newY) <? 4 then g_targetY else newY in
    SetWindowPos (left rect) newY ;;
    when (newY =? g_targetY) (KillTimer TIMER_REPOSITION).

(** ** Window activation *)

(** The part both activation paths share: the input state is attached to the
    foreground and the target thread, the target is raised, and the input
    state is detached again. *)
Definition force_foreground (sys : System) (target : HWND) : list Effect :=
  let fgWnd := GetForegroundWindow sys in
  [ AttachThreadInput fgWnd true; AttachThreadInput target true;
    SetWindowPos_TOP target; BringWindowToTop target;
    SwitchToThisWindow target; SetForegroundWindow target;
    AttachThreadInput target false; AttachThreadInput fgWnd false ].

Definition emits (es : list Effect) : Act unit := fun st => (tt, st, es).

Definition SwitchToWindowsTerminalTab (g : Globals) (sys : System) : Act unit :=
  if bool_decide (g_wtSavedRuntimeId g = []) || (g_wtWindowHandle g =? 0) then skip
  else if negb (IsWindow sys (g_wtWindowHandle g)) then skip
  else
    when (IsIconic sys (g_wtWindowHandle g)) (emit (ShowWindow (g_wtWindowHandle g) SW_RESTORE)) ;;
    emit AllowSetForegroundWindow ;;
    emit TryAltKeyTrick ;;
    emits (force_foreground sys (g_wtWindowHandle g)) ;;
    match uia_tabs sys (g_wtWindowHandle g) with
    | None => skip
    | Some tabs =>
      match List.find (fun t => bool_decide (tab_runtimeId t = g_wtSavedRuntimeId g)) tabs with
      | Some t => when (tab_pattern t) (emit (Select (g_wtWindowHandle g) (tab_runtimeId t)))
      | None => skip
      end
    end.

Definition ActivateWindow (g : Globals) (sys : System) : Act unit :=
  if negb (g_wtWindowHandle g =? 0) && negb (bool_decide (g_wtSavedRuntimeId g = []))
  then SwitchToWindowsTerminalTab g sys
  else if (g_targetWindowHandle g =? 0) || negb (IsWindow sys (g_targetWindowHandle g))
  then skip
  else
    emit AllowSetForegroundWindow ;;
    when (IsIconic sys (g_targetWindowHandle g)) (emit (ShowWindow (g_targetWindowHandle g) SW_RESTORE)) ;;
    emit TryAltKeyTrick ;;
    emits (force_foreground sys (g_targetWindowHandle g)).

(** ** The window procedure *)

(** Message numbers of <<winuser.h>>. *)
Definition WM_DESTROY : Z := 2.
Definition WM_PAINT : Z := 15.
Definition WM_TIMER : Z := 275.
Definition WM_MOUSEMOVE : Z := 512.
Definition WM_LBUTTONUP : Z := 514.
Definition WM_RBUTTONUP : Z := 517.
Definition WM_MOUSELEAVE : Z := 675.

Definition LOWORD (l : Z) : Z := Z.land l 65535.
Definition HIWORD (l : Z) : Z := Z.land (Z.shiftr l 16) 65535.

Definition IsPointInCloseButton (x y : Z) : bool :=
  let btnLeft := g_windowWidth - CLOSE_BUTTON_MARGIN - CLOSE_BUTTON_SIZE in
  let btnTop := CLOSE_BUTTON_MARGIN in
  (btnLeft <=? x) && (x <=? btnLeft + CLOSE_BUTTON_SIZE) &&
  (btnTop <=? y) && (y <=? btnTop + CLOSE_BUTTON_SIZE).

(** The promotion test shared by the poll timer and the closing broadcast. *)
Definition check_became_bottom (g : Globals) (sys : System) : Act unit :=
  myRect ← gets win_rect ;
  flag ← gets g_isBottomToast ;
  when (IsBottomToast (g_taskbarEdge g) (OtherToasts g sys) myRect && negb flag)
       (modify (set_g_isBottomToast true) ;;
        KillTimer TIMER_CHECK_BOTTOM ;;
        SetTimer TIMER_START_FADE g_displayMs).

Definition WndProc (g : Globals) (sys : System) (msg wParam lParam : Z) : Act unit :=
  if msg =? WM_PAINT then
    (* text only; brushes, borders and the icon are not modelled *)
    emit (DrawTextW (c_str (g_title g))) ;;
    emit (DrawTextW (c_str (g_message g))) ;;
    emit (DrawTextW CLOSE_GLYPH)
  else if msg =? WM_TIMER then
    if wParam =? TIMER_START_FADE then
      KillTimer TIMER_START_FADE ;;
      modify (set_g_isFading true) ;;
      SetTimer TIMER_FADE 16
    else if wParam =? TIMER_FADE then
      alpha ← gets g_alpha ;
      if g_fadeStep g <? alpha then
        modify (set_g_alpha ((alpha - g_fadeStep g) mod 256)) ;;
        alpha' ← gets g_alpha ;
        SetLayeredWindowAttributes alpha'
      else
        modify (set_g_isFading false) ;;
        KillTimer TIMER_FADE ;;
        NotifyOtherToastsClosing g sys ;;
        DestroyWindow
    else if wParam =? TIMER_REPOSITION then AnimateToPosition
    else if wParam =? TIMER_CHECK_BOTTOM then check_became_bottom g sys
    else skip
  else if msg =? WM_TOAST_CHECK_POSITION then
    let closedToastY := wrap32 wParam in
    myRect ← gets win_rect ;
    (if g_taskbarEdge g =? ABE_TOP then
       when (closedToastY <? top myRect)
            (modify (set_g_targetY (int_sub (top myRect) g_windowHeight)) ;;
             SetTimer TIMER_REPOSITION 16)
     else
       when (top myRect <? closedToastY)
            (modify (set_g_targetY (int_add (top myRect) g_windowHeight)) ;;
             SetTimer TIMER_REPOSITION 16)) ;;
    check_became_bottom g sys
  else if msg =? WM_TOAST_PAUSE_TIMER then
    let pause := negb (wParam =? 0) in
    if pause then
      fading ← gets g_isFading ;
      when fading
           (KillTimer TIMER_FADE ;;
            modify (set_g_isFading false) ;;
            modify (set_g_alpha 230) ;;
            SetLayeredWindowAttributes 230) ;;
      KillTimer TIMER_START_FADE
    else
      isBottom ← gets g_isBottomToast ;
      inside ← gets g_mouseInside ;
      when (isBottom && negb inside) (SetTimer TIMER_START_FADE g_displayMs)
  else if msg =? WM_LBUTTONUP then
    let x := LOWORD lParam in
    let y := HIWORD lParam in
    if IsPointInCloseButton x y then
      KillTimer TIMER_START_FADE ;;
      KillTimer TIMER_FADE ;;
      NotifyOtherToastsClosing g sys ;;
      DestroyWindow
    else
      modify (set_g_clicked true) ;;
      KillTimer TIMER_START_FADE ;;
      KillTimer TIMER_FADE ;;
      NotifyOtherToastsClosing g sys ;;
      HideWindow g ;;
      ActivateWindow g sys ;;
      DestroyWindow
  else if msg =? WM_RBUTTONUP then
    KillTimer TIMER_START_FADE ;;
    KillTimer TIMER_FADE ;;
    NotifyOtherToastsClosing g sys ;;
    DestroyWindow
  else if msg =? WM_MOUSEMOVE then
    inside ← gets g_mouseInside ;
    when (negb inside)
         (modify (set_g_mouseInside true) ;;
          emit TrackMouseEvent ;;
          NotifyAllToastsPauseTimer g sys true)
  else if msg =? WM_MOUSELEAVE then
    modify (set_g_mouseInside false) ;;
    NotifyAllToastsPauseTimer g sys false
  else if msg =? WM_DESTROY then
    modify (set_win_quit true) ;; emit PostQuitMessage
  else skip.

(** The message loop of [ShowToast]: messages are dispatched, each against the
    system as it is at that moment, until the quit message ends the loop.
    [None] means the loop is still waiting for a message. *)
Fixpoint message_loop (g : Globals) (msgs : list (System * (Z * Z * Z)))
    (st : Toast) : option (Toast * list Effect) :=
  if win_quit st then Some (st, [])
  else
    match msgs with
    | [] => None
    | (sys, (msg, wParam, lParam)) :: rest =>
      let r := WndProc g sys msg wParam lParam st in
      match message_loop g rest (r.1.2) with
      | Some (st', log) => Some (st', r.2 ++ log)
      | None => None
      end
    end.

(** ** State file management *)

Fixpoint starts_with (needle hay : list N) : bool :=
  match needle, hay with
  | [], _ => true
  | n :: needle', h :: hay' => (n =? h)%N && starts_with needle' hay'
  | _ :: _, [] => false
  end.

(** The text after the first occurrence of [needle], as <<find>> locates it. *)
Fixpoint after_first (needle hay : list N) : option (list N) :=
  if starts_with needle hay then Some (drop (length needle) hay)
  else match hay with
       | [] => None
       | _ :: hay' => after_first needle hay'
       end.

Fixpoint skip_json_space (s : list N) : list N :=
  match s with
  | c :: s' =>
    if (c =? 32)%N || (c =? 9)%N || (c =? 10)%N || (c =? 13)%N
    then skip_json_space s' else s
  | [] => []
  end.

(** The loop over the value up to the closing quote, escapes resolved. *)
Fixpoint json_string_body (s : list N) : list N :=
  match s with
  | [] => []
  | c :: s' =>
    if (c =? 92)%N then
      match s' with
      | e :: s'' =>
        (if (e =? 110)%N then 10%N
         else if (e =? 114)%N then 13%N
         else if (e =? 116)%N then 9%N
         else e) :: json_string_body s''
      | [] => [c]
      end
    else if (c =? 34)%N then []
    else c :: json_string_body s'
  end.

Definition ExtractJsonStringValue (sys : System) (json : list N) (key : string) : wstring :=
  let searchKey := [34%N] ++ L key ++ [34%N] in
  match after_first searchKey json with
  | None => []
  | Some afterKey =>
    match after_first [58%N] afterKey with
    | None => []
    | Some afterColon =>
      match skip_json_space afterColon with
      | c :: body =>
        if (c =? 34)%N then
          let value := json_string_body body in
          match MultiByteToWideChar sys (c_str value) with
          | Some wvalue => wvalue
          | None => []
          end
        else []
      | [] => []
      end
    end
  end.

Definition GetStateFilePath (sys : System) (sessionId : wstring) : wstring :=
  GetTempPathW sys ++ L "claude-notify-" ++ sessionId ++ L ".txt".

(** The temporary-file area: path to contents. *)
Abbreviation FS := (gmap wstring wstring).

Definition selected_tab_runtimeId (sys : System) (h : HWND) : wstring :=
  if IsWindowsTerminalWindow sys h then
    match uia_tabs sys h with
    | Some tabs =>
      match List.find (fun t => tab_pattern t && tab_selected t) tabs with
      | Some t => tab_runtimeId t
      | None => []
      end
    | None => []
    end
  else [].

Definition SaveState (sys : System) (stdin : list N) (g : Globals) (fs : FS) : Globals * FS :=
  let jsonInput := stdin in
  let g := set_g_sessionId (ExtractJsonStringValue sys jsonInput "session_id") g in
  let userPrompt := ExtractJsonStringValue sys jsonInput "prompt" in
  if bool_decide (g_sessionId g = []) then (g, fs)
  else
    let hwnd := g_immediateHwnd g in
    let hwnd := if (hwnd =? 0) || negb (IsWindow sys hwnd)
                then GetForegroundWindow sys else hwnd in
    let stateFile := GetStateFilePath sys (g_sessionId g) in
    if negb (wfopen_w sys (c_str stateFile)) then (g, fs)
    else
      let line1 := print_lld hwnd ++ [WLF] in
      let runtimeId := selected_tab_runtimeId sys hwnd in
      let line2 := c_str runtimeId ++ [WLF] in
      let callerExe := FindCallerExePath sys in
      let line3 := c_str callerExe ++ [WLF] in
      let line4 := c_str userPrompt ++ [WLF] in
      (g, <[c_str stateFile := line1 ++ line2 ++ line3 ++ line4]> fs).

(** One <<fgetws>> into the 2048-character buffer followed by the removal of
    the line end; the stream position advances. *)
Definition next_line (f : wstring) : option wstring * wstring :=
  match fgetws 2048 f with
  | Some (line, f') => (Some (strip_eol (c_str line)), f')
  | None => (None, f)
  end.

Definition LoadState (sys : System) (fs : FS) (sessionId : wstring) (g : Globals) : Globals :=
  let stateFile := GetStateFilePath sys sessionId in
  match fs !! c_str stateFile with
  | None => g
  | Some f =>
    (* Line 1: HWND *)
    let r1 := next_line f in
    let g := match r1.1 with
             | Some line =>
               let hwnd := _wtoi64 line in
               if negb (hwnd =? 0) && IsWindow sys hwnd then
                 let g := set_g_targetWindowHandle hwnd g in
                 if IsWindowsTerminalWindow sys hwnd then set_g_wtWindowHandle hwnd g else g
               else g
             | None => g
             end in
    (* Line 2: RuntimeId *)
    let r2 := next_line r1.2 in
    let g := match r2.1 with
             | Some line => if (0 <? length line)%nat then set_g_wtSavedRuntimeId line g else g
             | None => g
             end in
    (* Line 3: Icon path *)
    let r3 := next_line r2.2 in
    let g := match r3.1 with
             | Some line => if (0 <? length line)%nat then set_g_savedIconPath line g else g
             | None => g
             end in
    (* Line 4: User prompt *)
    let r4 := next_line r3.2 in
    match r4.1 with
    | Some line => if (0 <? length line)%nat then set_g_userPrompt line g else g
    | None => g
    end
  end.

(** ** Showing the toast *)

Definition initial_toast : Toast :=
  {| g_alpha := INITIAL_ALPHA; g_clicked := false; g_mouseInside := false;
     g_isFading := false; g_targetY := 0; g_isBottomToast := false;
     win_rect := mkRECT 0 0 0 0; win_timers := ∅; win_alpha := 255;
     win_visible := false; win_destroyed := false; win_quit := false |}.

(** [ShowToast] up to the message loop: the screen data are cached, the
    stacked position is computed, the window is created and the first timer
    is armed.  Font, icon and sound are not modelled.  [None] when the window
    could not be created. *)
Definition ShowToast_init (sys : System) (g : Globals) : Globals * option Toast :=
  let fadeTicks := Z.quot g_fadeMs 16 in
  let fadeTicks := if fadeTicks <? 1 then 1 else fadeTicks in
  let g := set_g_fadeStep (Z.quot 230 fadeTicks + 1) g in
  let g := set_g_workArea (monitor_rcWork sys) g in
  let g := set_g_taskbarEdge (match taskbar_uEdge sys with Some e => e | None => ABE_BOTTOM end) g in
  let x := int_sub (right (g_workArea g)) g_windowWidth in
  let x := if g_taskbarEdge g =? ABE_LEFT then left (g_workArea g) else x in
  let y := CalculateStackedY (g_taskbarEdge g) (g_workArea g) (OtherToasts g sys) in
  let st := set_g_targetY y initial_toast in
  let g := set_g_hwnd (CreateWindowExW sys) g in
  if g_hwnd g =? 0 then (g, None)
  else
    let st := set_win_rect (mkRECT x y (x + g_windowWidth) (y + g_windowHeight)) st in
    let st := set_win_alpha (g_alpha st) st in
    let st := set_g_isBottomToast
                (IsBottomToast (g_taskbarEdge g) (OtherToasts g sys) (win_rect st)) st in
    let st := if g_isBottomToast st
              then set_win_timers (<[TIMER_START_FADE := g_displayMs]> (win_timers st)) st
              else set_win_timers (<[TIMER_CHECK_BOTTOM := 200]> (win_timers st)) st in
    (g, Some (set_win_visible true st)).

(** [ShowToast]: [None] while the message loop has not ended. *)
Definition ShowToast (sys : System) (msgs : list (System * (Z * Z * Z)))
    (g : Globals) : option (Globals * list Effect) :=
  match ShowToast_init sys g with
  | (g, None) => Some (g, [])
  | (g, Some st) =>
    match message_loop g msgs st with
    | Some (_, log) => Some (g, log)
    | None => None
    end
  end.

(** ** Entry point *)

Record Modes := mkModes {
  saveMode : bool; notifyMode : bool; inputMode : bool; notifyShowMode : bool
}.

Fixpoint parse_arguments (args : list wstring) (m : Modes) (g : Globals) : Modes * Globals :=
  match args with
  | [] => (m, g)
  | arg :: rest =>
    if bool_decide (arg = L "--save") then
      parse_arguments rest (mkModes true (notifyMode m) (inputMode m) (notifyShowMode m)) g
    else if bool_decide (arg = L "--notify") then
      parse_arguments rest (mkModes (saveMode m) true (inputMode m) (notifyShowMode m)) g
    else if bool_decide (arg = L "--input") then
      parse_arguments rest (mkModes (saveMode m) (notifyMode m) true (notifyShowMode m)) g
    else if bool_decide (arg = L "--notify-show") then
      parse_arguments rest (mkModes (saveMode m) (notifyMode m) (inputMode m) true) g
    else if bool_decide (arg = L "--input-mode") then
      parse_arguments rest m (set_g_inputMode true g)
    else if bool_decide (arg = L "--debug") || bool_decide (arg = L "-d") then
      parse_arguments rest m (set_g_debug true g)
    else if bool_decide (arg = L "--session") then
      match rest with
      | v :: rest' => parse_arguments rest' m (set_g_sessionId v g)
      | [] => (m, g)
      end
    else parse_arguments rest m g
  end.

(** The two steps that turn the loaded prompt into the displayed line. *)
Definition replace_newlines (m : wstring) : wstring :=
  map (fun c => if (c =? WLF)%N || (c =? WCR)%N then WSPACE else c) m.

Definition maxLen : nat := 35.

Definition truncate_with_ellipsis (m : wstring) : wstring :=
  if (maxLen <? length m)%nat then take maxLen m ++ L "..." else m.

(** The show process before [ShowToast]: the state is loaded and the title
    and message are chosen and normalised. *)
Definition prepare_notification (sys : System) (fs : FS) (g : Globals) : Globals :=
  let g := LoadState sys fs (g_sessionId g) g in
  let g := if g_inputMode g then
             let g := set_g_title (L "Input Required") g in
             if bool_decide (g_userPrompt g = [])
             then set_g_message (L "Claude needs your input") g
             else set_g_message (g_userPrompt g) g
           else
             let g := set_g_title (L "Claude Code") g in
             if bool_decide (g_userPrompt g = [])
             then set_g_message (L "Task completed") g
             else set_g_message (g_userPrompt g) g in
  set_g_message (truncate_with_ellipsis (replace_newlines (g_message g))) g.

(** The command line of the detached second-phase process. *)
Definition child_command_line (sys : System) (g : Globals) (input_style : bool) : wstring :=
  [34%N] ++ c_str (GetModuleFileNameW sys) ++
  (if input_style then [34%N] ++ L " --notify-show --input-mode --session " ++ [34%N]
   else [34%N] ++ L " --notify-show --session " ++ [34%N]) ++
  g_sessionId g ++ [34%N] ++ (if g_debug g then L " --debug" else []).

Record Exit := mkExit { exit_code : Z; exit_fs : FS; exit_log : list Effect }.

(** [WinMain].  [sys0] is the system at program start, [sys] the system
    afterwards, [argv] the result of <<CommandLineToArgvW>>, [stdin] the
    bytes on standard input, [msgs] the messages the loop receives.  [None]
    while the process has not exited. *)
Definition WinMain (sys0 sys : System) (argv : option (list wstring)) (stdin : list N)
    (msgs : list (System * (Z * Z * Z))) (fs : FS) : option Exit :=
  let g := set_g_immediateHwnd (GetForegroundWindow sys0) initial_globals in
  match argv with
  | None => Some (mkExit 1 fs [])
  | Some argv =>
    let '(m, g) := parse_arguments (tail argv) (mkModes false false false false) g in
    if saveMode m then
      let '(g, fs) := SaveState sys stdin g fs in
      Some (mkExit 0 fs [])
    else if notifyMode m then
      let g := set_g_sessionId (ExtractJsonStringValue sys stdin "session_id") g in
      if bool_decide (g_sessionId g = []) then Some (mkExit 1 fs [])
      else Some (mkExit 0 fs [CreateProcessW (child_command_line sys g false)])
    else if inputMode m then
      let g := set_g_sessionId (ExtractJsonStringValue sys stdin "session_id") g in
      if bool_decide (g_sessionId g = []) then Some (mkExit 1 fs [])
      else Some (mkExit 0 fs [CreateProcessW (child_command_line sys g true)])
    else if notifyShowMode m then
      if bool_decide (g_sessionId g = []) then Some (mkExit 1 fs [])
      else
        let g := prepare_notification sys fs g in
        match ShowToast sys msgs g with
        | None => None
        | Some (g, log) =>
          let stateFile := GetStateFilePath sys (g_sessionId g) in
          Some (mkExit 0 (delete (c_str stateFile) fs) log)
        end
    else Some (mkExit 1 fs [])
  end.

(** Repeated delivery of the reposition timer message. *)
Fixpoint reposition_ticks (g : Globals) (sys : System) (n : nat) (st : Toast) : Toast :=
  match n with
  | O => st
  | S n' => reposition_ticks g sys n' ((WndProc g sys WM_TIMER TIMER_REPOSITION 0 st).1.2)
  end.

(** The step the animation takes from [cur] toward [tgt], in exact
    arithmetic: two fifths of the distance, never zero. *)
Definition animation_step (cur tgt : Z) : Z :=
  let diff := tgt - cur in
  if Z.quot (diff * 2) 5 =? 0 then (if 0 <? diff then 2 else -2)
  else Z.quot (diff * 2) 5.

(** ** Notions the properties are stated with *)

(** A system in which nothing else exists; the base of the examples. *)
Definition quiet_system : System :=
  {| windows := []; IsWindow := fun _ => false; IsIconic := fun _ => false;
     IsWindowsTerminalWindow := fun _ => false; GetForegroundWindow := 0;
     uia_tabs := fun _ => None; FindCallerExePath := []; GetTempPathW := L "C:/Temp/";
     wfopen_w := fun _ => true; MultiByteToWideChar := fun s => Some s;
     GetModuleFileNameW := L "C:/bin/ToastWindow.exe";
     monitor_rcWork := mkRECT 0 0 1920 1000; taskbar_uEdge := Some ABE_BOTTOM;
     CreateWindowExW := 100 |}.

Definition with_windows (ws : list Window) (sys : System) : System :=
  mkSystem ws (IsWindow sys) (IsIconic sys) (IsWindowsTerminalWindow sys)
           (GetForegroundWindow sys) (uia_tabs sys) (FindCallerExePath sys)
           (GetTempPathW sys) (wfopen_w sys) (MultiByteToWideChar sys)
           (GetModuleFileNameW sys) (monitor_rcWork sys) (taskbar_uEdge sys)
           (CreateWindowExW sys).

(** The same with window 4242 in the foreground. *)
Definition desk_system : System :=
  {| windows := []; IsWindow := fun h => h =? 4242; IsIconic := fun _ => false;
     IsWindowsTerminalWindow := fun _ => false; GetForegroundWindow := 4242;
     uia_tabs := fun _ => None; FindCallerExePath := L "C:/apps/Code.exe";
     GetTempPathW := L "C:/Temp/";
     wfopen_w := fun _ => true; MultiByteToWideChar := fun s => Some s;
     GetModuleFileNameW := L "C:/bin/ToastWindow.exe";
     monitor_rcWork := mkRECT 0 0 1920 1000; taskbar_uEdge := Some ABE_BOTTOM;
     CreateWindowExW := 100 |}.

(** The bytes of the hook payload with the given session id and the given
    JSON text of the prompt. *)
Definition json_payload (session_id : string) (prompt : list N) : list N :=
  L "{" ++ [34%N] ++ L "session_id" ++ [34%N] ++ L ":" ++ [34%N] ++ L session_id ++
  [34%N] ++ L "," ++ [34%N] ++ L "prompt" ++ [34%N] ++ L ":" ++ [34%N] ++ prompt ++
  [34%N] ++ L "}".

(** A visible window of the toast class: a live instance as its peers see it. *)
Definition is_toast (w : Window) : Prop :=
  w_class w = TOAST_CLASS_NAME /\ w_visible w = true.

#[global] Instance is_toast_dec w : Decision (is_toast w).
Proof. unfold is_toast. apply _. Defined.

(** A toast window placed at height [y] on a 1920-wide screen. *)
Definition toast_at (h : HWND) (y : Z) : Window :=
  mkWindow h TOAST_CLASS_NAME true (mkRECT 1620 y 1920 (y + g_windowHeight)).

(** [r] lies strictly closer to the taskbar edge than [mine]. *)
Definition closer_to_edge (g_taskbarEdge : Z) (r mine : RECT) : Prop :=
  if g_taskbarEdge =? ABE_TOP then top r < top mine else bottom r > bottom mine.

(** The coordinate that orders the stack for the given edge. *)
Definition edge_coordinate (g_taskbarEdge : Z) (r : RECT) : Z :=
  if g_taskbarEdge =? ABE_TOP then top r else bottom r.

(** What [IsBottomToast] answers inside the process that owns window [w],
    all instances having cached the same taskbar edge. *)
Definition instance_isAnchor (g_taskbarEdge : Z) (ws : list Window) (w : Window) : bool :=
  IsBottomToast g_taskbarEdge (GetOtherToasts g_taskbarEdge (w_hwnd w) ws) (w_rect w).

(** Exactly one live instance answers true. *)
Definition exactly_one_anchor (g_taskbarEdge : Z) (ws : list Window) : Prop :=
  exists w, w ∈ ws /\ is_toast w /\ instance_isAnchor g_taskbarEdge ws w = true /\
    forall w', w' ∈ ws -> is_toast w' -> instance_isAnchor g_taskbarEdge ws w' = true ->
               w_hwnd w' = w_hwnd w.

(** The coordinate with zero gap next to rectangle [p], on the side away
    from the taskbar edge. *)
Definition adjacent_away (g_taskbarEdge : Z) (p : RECT) : Z :=
  if g_taskbarEdge =? ABE_TOP then bottom p else top p - g_windowHeight.

(** The vertical extents of a new toast at [y] and of [p] do not meet. *)
Definition clear_of (y : Z) (p : RECT) : Prop :=
  y + g_windowHeight <= top p \/ bottom p <= y.

(** Text without the terminator, and text that stays on one line. *)
Definition no_nul (s : wstring) : Prop := Forall (fun c => c <> 0%N) s.
Definition no_newline (s : wstring) : Prop := Forall (fun c => c <> WLF) s.
Definition single_line (s : wstring) : Prop :=
  Forall (fun c => c <> WLF /\ c <> WCR) s.

Definition int64_range (z : Z) : Prop :=
  -9223372036854775808 <= z <= 9223372036854775807.

(** The window [SaveState] records: the one captured at program start when
    it is still a window, the current foreground window otherwise. *)
Definition captured_window (sys0 sys : System) : HWND :=
  let hwnd := GetForegroundWindow sys0 in
  if (hwnd =? 0) || negb (IsWindow sys hwnd) then GetForegroundWindow sys else hwnd.

(** The globals once [WinMain] has recorded the foreground window. *)
Definition started (sys0 : System) : Globals :=
  set_g_immediateHwnd (GetForegroundWindow sys0) initial_globals.

(** The arguments of the record invocation and of the second-phase show
    process for session [k], as <<CommandLineToArgvW>> delivers them. *)
Definition record_argv : list wstring := [L "ToastWindow.exe"; L "--save"].

Definition second_phase_argv (input_style : bool) (k : wstring) : list wstring :=
  if input_style
  then [L "ToastWindow.exe"; L "--notify-show"; L "--input-mode"; L "--session"; k]
  else [L "ToastWindow.exe"; L "--notify-show"; L "--session"; k].

Definition second_phase_globals (sys0 : System) (input_style : bool) (k : wstring) : Globals :=
  set_g_sessionId k
    (if input_style then set_g_inputMode true (started sys0) else started sys0).

(** The globals once [ShowToast] has created the window. *)
Definition instance_globals (sys : System) (g : Globals) : Globals :=
  set_g_hwnd (CreateWindowExW sys)
    (set_g_taskbarEdge (match taskbar_uEdge sys with Some e => e | None => ABE_BOTTOM end)
       (set_g_workArea (monitor_rcWork sys) (set_g_fadeStep 4 g))).

(** The message a show process falls back to. *)
Definition default_title (input_style : bool) : wstring :=
  if input_style then L "Input Required" else L "Claude Code".
Definition default_message (input_style : bool) : wstring :=
  if input_style then L "Claude needs your input" else L "Task completed".

(** The text the show process takes for its message before normalising it. *)
Definition chosen_message (g : Globals) : wstring :=
  if bool_decide (g_userPrompt g = []) then default_message (g_inputMode g)
  else g_userPrompt g.

(** A primary click outside the close button. *)
Definition body_click (lParam : Z) : Prop :=
  IsPointInCloseButton (LOWORD lParam) (HIWORD lParam) = false.

(** The text up to the first newline. *)
Fixpoint first_line (s : wstring) : wstring :=
  match s with
  | [] => []
  | c :: s' => if (c =? WLF)%N then [] else c :: first_line s'
  end.

(** The globals [LoadState] leaves when the four lines of the file, line
    ends removed, are as given. *)
Definition loaded (sys : System) (hwnd : HWND) (line2 line3 line4 : wstring)
    (g : Globals) : Globals :=
  let g := if negb (hwnd =? 0) && IsWindow sys hwnd then
             let g := set_g_targetWindowHandle hwnd g in
             if IsWindowsTerminalWindow sys hwnd then set_g_wtWindowHandle hwnd g else g
           else g in
  let g := if (0 <? length line2)%nat then set_g_wtSavedRuntimeId line2 g else g in
  let g := if (0 <? length line3)%nat then set_g_savedIconPath line3 g else g in
  if (0 <? length line4)%nat then set_g_userPrompt line4 g else g.

(** The four lines [SaveState] writes. *)
Definition state_file (hwnd : HWND) (runtimeId callerExe userPrompt : wstring) : wstring :=
  (print_lld hwnd ++ [WLF]) ++ (c_str runtimeId ++ [WLF]) ++
  (c_str callerExe ++ [WLF]) ++ (c_str userPrompt ++ [WLF]).

(** The closing broadcast of an instance whose rectangle starts at [y]: one
    posting per discovered peer. *)
Definition closing_broadcast (g : Globals) (sys : System) (y : Z) : list Effect :=
  map (fun t => PostMessage (hwnd t) WM_TOAST_CHECK_POSITION (to_WPARAM y) 0)
      (OtherToasts g sys).

(** The pause (or resume) broadcast: to the instance itself, then to each
    discovered peer. *)
Definition pause_broadcast (g : Globals) (sys : System) (pause : bool) : list Effect :=
  PostMessage (g_hwnd g) WM_TOAST_PAUSE_TIMER (if pause then 1 else 0) 0 ::
  map (fun t => PostMessage (hwnd t) WM_TOAST_PAUSE_TIMER (if pause then 1 else 0) 0)
      (OtherToasts g sys).

Definition is_PostMessage (e : Effect) : bool :=
  match e with PostMessage _ _ _ _ => true | _ => false end.

(** The receiving instance sits farther from the taskbar edge than a closed
    rectangle whose top was [closedY]. *)
Definition farther_from_edge (g_taskbarEdge : Z) (myRect : RECT) (closedY : Z) : Prop :=
  if g_taskbarEdge =? ABE_TOP then closedY < top myRect else top myRect < closedY.

(** One notification-height toward the taskbar edge. *)
Definition shifted_toward_edge (g_taskbarEdge : Z) (y : Z) : Z :=
  if g_taskbarEdge =? ABE_TOP then y - g_windowHeight else y + g_windowHeight.

(** The new coordinate [AnimateToPosition] computes away from the target. *)
Definition animate_newY (currentY g_targetY : Z) : Z :=
  let diff := int_sub g_targetY currentY in
  let step := int_div (int_mul diff 2) 5 in
  let step := if step =? 0 then (if 0 <? diff then 2 else -2) else step in
  let newY := int_add currentY step in
  if int_abs (int_sub g_targetY newY) <? 4 then g_targetY else newY.

(** Where one tick leaves the window: a step further, or on the target when
    that is less than four pixels away. *)
Definition next_position (cur tgt : Z) : Z :=
  let newY := cur + animation_step cur tgt in
  if Z.abs (tgt - newY) <? 4 then tgt else newY.

(* ===================================================================== *)
(** * Properties *)
(* ===================================================================== *)

(** ** Machine integers *)

Lemma wrap32_id z : int_range z -> wrap32 z = z.
Proof.
  unfold int_range, wrap32. intros H.
  rewrite Z.mod_small by lia. lia.
Qed.

(** Case analysis on the first integer test that guards a branch of the goal. *)
Ltac case_Z_test :=
  match goal with
  | |- context [if ?x =? ?y then _ else _] => destruct (Z.eqb_spec x y)
  | |- context [if ?x <? ?y then _ else _] => destruct (Z.ltb_spec x y)
  | |- context [if ?x <=? ?y then _ else _] => destruct (Z.leb_spec x y)
  end.

(** ** The reposition animation *)

Section Animation.

Variables (cur tgt : Z).
Hypothesis Hcur : coord_ok cur.
Hypothesis Htgt : coord_ok tgt.

(** Between two admissible coordinates the 32-bit computation of the
    source agrees with exact arithmetic. *)
Lemma machine_step_exact :
  (let diff := int_sub tgt cur in
   let step := int_div (int_mul diff 2) 5 in
   let step := if step =? 0 then (if 0 <? diff then 2 else -2) else step in
   let newY := int_add cur step in
   if int_abs (int_sub tgt newY) <? 4 then tgt else newY) = next_position cur tgt.
Proof.
  unfold coord_ok in *. cbv zeta.
  unfold next_position, animation_step, int_sub, int_mul, int_div, int_add, int_abs.
  rewrite (wrap32_id (tgt - cur)) by (unfold int_range; lia).
  rewrite (wrap32_id ((tgt - cur) * 2)) by (unfold int_range; lia).
  rewrite (wrap32_id (Z.quot ((tgt - cur) * 2) 5))
    by (unfold int_range; Z.to_euclidean_division_equations; lia).
  set (step := if Z.quot ((tgt - cur) * 2) 5 =? 0 then (if 0 <? tgt - cur then 2 else -2)
               else Z.quot ((tgt - cur) * 2) 5).
  assert (Hstep : -2147483648 < 2 * step < 2147483648 /\ -1073741824 < cur + step < 1073741824).
  { subst step. destruct (Z.eqb_spec (Z.quot ((tgt - cur) * 2) 5) 0);
      [destruct (Z.ltb_spec 0 (tgt - cur)); lia
      | Z.to_euclidean_division_equations; lia]. }
  rewrite (wrap32_id (cur + step)) by (unfold int_range; lia).
  rewrite (wrap32_id (tgt - (cur + step))) by (unfold int_range; lia).
  rewrite (wrap32_id (Z.abs _)) by (unfold int_range; lia).
  reflexivity.
Qed.

(** A tick away from the target lands strictly nearer to it, on the same
    side or on the target itself. *)
Lemma next_position_closer :
  cur <> tgt ->
  Z.abs (tgt - next_position cur tgt) < Z.abs (tgt - cur) /\
  coord_ok (next_position cur tgt).
Proof.
  intros Hne. unfold coord_ok in *. unfold next_position, animation_step.
  repeat case_Z_test; Z.to_euclidean_division_equations; lia.
Qed.

End Animation.

Lemma next_position_fixed y : next_position y y = y.
Proof. unfold next_position, animation_step. replace (y - y) with 0 by lia. simpl.
  replace (y - (y + -2)) with 2 by lia. reflexivity. Qed.

Lemma animate_newY_exact cur tgt :
  coord_ok cur -> coord_ok tgt -> animate_newY cur tgt = next_position cur tgt.
Proof. intros. unfold animate_newY. by apply machine_step_exact. Qed.

(** [AnimateToPosition] with its arithmetic named. *)
Lemma AnimateToPosition_unfold st :
  AnimateToPosition st =
  (if top (win_rect st) =? g_targetY st then KillTimer TIMER_REPOSITION st
   else
     let newY := animate_newY (top (win_rect st)) (g_targetY st) in
     (SetWindowPos (left (win_rect st)) newY ;;
      when (newY =? g_targetY st) (KillTimer TIMER_REPOSITION)) st).
Proof.
  unfold AnimateToPosition, animate_newY, mbind, Act_bind, gets. simpl.
  destruct (top (win_rect st) =? g_targetY st); reflexivity.
Qed.

Lemma WndProc_reposition g sys lParam st :
  WndProc g sys WM_TIMER TIMER_REPOSITION lParam st = AnimateToPosition st.
Proof. reflexivity. Qed.

(** What one tick does to the state, for admissible coordinates. *)
Lemma AnimateToPosition_tick st :
  coord_ok (top (win_rect st)) -> coord_ok (g_targetY st) ->
  let st' := (AnimateToPosition st).1.2 in
  g_targetY st' = g_targetY st /\
  top (win_rect st') = next_position (top (win_rect st)) (g_targetY st) /\
  left (win_rect st') = left (win_rect st) /\
  win_timers st' =
    (if top (win_rect st') =? g_targetY st
     then delete TIMER_REPOSITION (win_timers st) else win_timers st).
Proof.
  intros Hc Ht. rewrite AnimateToPosition_unfold.
  destruct (Z.eqb_spec (top (win_rect st)) (g_targetY st)) as [E|E].
  - cbn. rewrite E at 2. rewrite next_position_fixed.
    rewrite E, Z.eqb_refl. auto.
  - cbv zeta. rewrite animate_newY_exact by assumption.
    unfold mbind, Act_bind, SetWindowPos, when, KillTimer, modify, skip, mret, Act_ret.
    destruct (next_position (top (win_rect st)) (g_targetY st) =? g_targetY st) eqn:En;
      cbn; rewrite ?En; auto.
Qed.

Lemma reposition_reaches_target g sys (k : nat) : forall st,
  coord_ok (top (win_rect st)) -> coord_ok (g_targetY st) ->
  top (win_rect st) <> g_targetY st ->
  Z.abs (g_targetY st - top (win_rect st)) <= Z.of_nat k ->
  exists n, (1 <= n <= k)%nat /\
    top (win_rect (reposition_ticks g sys n st)) = g_targetY st /\
    g_targetY (reposition_ticks g sys n st) = g_targetY st /\
    win_timers (reposition_ticks g sys n st) !! TIMER_REPOSITION = None.
Proof.
  induction k as [|k IH]; intros st Hc Ht Hne Hk; [lia|].
  destruct (AnimateToPosition_tick st Hc Ht) as (Etgt & Etop & _ & Etim).
  destruct (next_position_closer _ _ Hc Ht Hne) as [Hlt Hok].
  set (st1 := (AnimateToPosition st).1.2) in *.
  destruct (Z.eqb_spec (top (win_rect st1)) (g_targetY st)) as [E|E].
  - exists 1%nat. split; [lia|]. cbn [reposition_ticks].
    rewrite WndProc_reposition. fold st1.
    rewrite Etim. split; [done|]. split; [done|]. apply lookup_delete_eq.
  - destruct (IH st1) as (n & Hn & R1 & R2 & R3).
    + by rewrite Etop.
    + by rewrite Etgt.
    + by rewrite Etgt.
    + rewrite Etgt, Etop. lia.
    + exists (S n). split; [lia|]. cbn [reposition_ticks].
      rewrite WndProc_reposition. fold st1.
      rewrite R1, R2, R3, Etgt. done.
Qed.



(** ** Peer discovery *)

Lemma class_buffer_matches (c : wstring) :
  take 63 c = TOAST_CLASS_NAME <-> c = TOAST_CLASS_NAME.
Proof.
  split; intros H.
  - assert (Hl : length (take 63 c) = 15%nat) by (rewrite H; reflexivity).
    rewrite length_take in Hl.
    rewrite <- H. symmetry. apply take_ge. lia.
  - rewrite H. reflexivity.
Qed.

Lemma EnumToastWindows_Some self w t :
  EnumToastWindows self w = Some t <->
  w_hwnd w <> self /\ is_toast w /\ t = mkToastInfo (w_hwnd w) (w_rect w).
Proof.
  unfold EnumToastWindows, is_toast.
  destruct (decide (w_hwnd w = self)) as [E|E].
  { split; [done|]. by intros [? _]. }
  destruct (Z.ltb_spec 0 (Z.of_nat (length (take 63 (w_class w))))) as [Hlen|Hlen].
  - destruct (bool_decide_reflect (take 63 (w_class w) = TOAST_CLASS_NAME)) as [Hc|Hc];
      rewrite class_buffer_matches in Hc; destruct (w_visible w); simpl;
      (split; [intros [= <-] | intros (_ & [? ?] & ->)]); done.
  - split; [done|]. intros (_ & [Hc _] & _).
    rewrite Hc in Hlen. simpl in Hlen. lia.
Qed.

(** The peer set is exactly the other visible windows of the toast class. *)
Lemma elem_of_GetOtherToasts edge self ws t :
  t ∈ GetOtherToasts edge self ws <->
  exists w, w ∈ ws /\ w_hwnd w <> self /\ is_toast w /\
            t = mkToastInfo (w_hwnd w) (w_rect w).
Proof.
  unfold GetOtherToasts. cbv zeta.
  destruct (edge =? ABE_TOP); rewrite merge_sort_Permutation, list_elem_of_omap;
    split; intros (w & Hw & H); exists w; (split; [done|]);
    by apply EnumToastWindows_Some.
Qed.

(** ** The anchor test *)

Lemma IsBottomToast_true edge toasts myRect :
  IsBottomToast edge toasts myRect = true <->
  forall t, t ∈ toasts -> ~ closer_to_edge edge (rect t) myRect.
Proof.
  unfold IsBottomToast, closer_to_edge.
  destruct toasts as [|t0 toasts'].
  - split; [|done]. intros _ t Ht. by apply elem_of_nil in Ht.
  - set (ts := t0 :: toasts'). clearbody ts.
    destruct (edge =? ABE_TOP); rewrite forallb_forall; split; intros H t Ht.
    + apply list_elem_of_In, H, negb_true_iff, Z.ltb_ge in Ht. lia.
    + apply negb_true_iff, Z.ltb_ge. apply list_elem_of_In, H in Ht. lia.
    + apply list_elem_of_In, H, negb_true_iff, Z.ltb_ge in Ht. lia.
    + apply negb_true_iff, Z.ltb_ge. apply list_elem_of_In, H in Ht. lia.
Qed.

Lemma instance_isAnchor_true edge ws w :
  instance_isAnchor edge ws w = true <->
  forall p, p ∈ ws -> w_hwnd p <> w_hwnd w -> is_toast p ->
            ~ closer_to_edge edge (w_rect p) (w_rect w).
Proof.
  unfold instance_isAnchor. rewrite IsBottomToast_true. split.
  - intros H p Hp Hne Ht.
    apply (H (mkToastInfo (w_hwnd p) (w_rect p))).
    apply elem_of_GetOtherToasts. by exists p.
  - intros H t Ht. apply elem_of_GetOtherToasts in Ht as (p & Hp & Hne & Htoast & ->).
    by apply H.
Qed.

Lemma closer_to_edge_coordinate edge r mine :
  closer_to_edge edge r mine <->
  (if edge =? ABE_TOP then edge_coordinate edge r < edge_coordinate edge mine
   else edge_coordinate edge r > edge_coordinate edge mine).
Proof. unfold closer_to_edge, edge_coordinate. by destruct (edge =? ABE_TOP). Qed.

Lemma closer_to_edge_irrefl edge r : ~ closer_to_edge edge r r.
Proof. unfold closer_to_edge. destruct (edge =? ABE_TOP); lia. Qed.

Lemma closer_to_edge_trans edge a b c :
  closer_to_edge edge a b -> closer_to_edge edge b c -> closer_to_edge edge a c.
Proof. unfold closer_to_edge. destruct (edge =? ABE_TOP); lia. Qed.

Lemma closer_to_edge_dec edge a b : {closer_to_edge edge a b} + {~ closer_to_edge edge a b}.
Proof.
  unfold closer_to_edge. destruct (edge =? ABE_TOP); [apply Z_lt_dec | apply Z_gt_dec].
Qed.

(** Among finitely many toasts one is not beaten by any other. *)
Lemma extreme_toast_exists edge (ws : list Window) :
  (exists w, w ∈ ws /\ is_toast w) ->
  exists w, w ∈ ws /\ is_toast w /\
    forall p, p ∈ ws -> is_toast p -> ~ closer_to_edge edge (w_rect p) (w_rect w).
Proof.
  induction ws as [|a ws IH]; intros (w0 & Hw0 & Ht0).
  - by apply elem_of_nil in Hw0.
  - destruct (decide (Exists is_toast ws)) as [Hex|Hnone].
    + apply Exists_exists in Hex. destruct (IH Hex) as (w & Hw & Htw & Hbest).
      destruct (decide (is_toast a)) as [Ha|Ha];
        [destruct (closer_to_edge_dec edge (w_rect a) (w_rect w)) as [Hc|Hc]|].
      * exists a. split; [left|]. split; [done|].
        intros p Hp Htp Hpa. apply elem_of_cons in Hp as [->|Hp].
        -- by apply closer_to_edge_irrefl in Hpa.
        -- apply (Hbest p Hp Htp). eauto using closer_to_edge_trans.
      * exists w. split; [by right|]. split; [done|].
        intros p Hp Htp. apply elem_of_cons in Hp as [->|Hp]; auto.
      * exists w. split; [by right|]. split; [done|].
        intros p Hp Htp. apply elem_of_cons in Hp as [->|Hp]; auto.
    + rewrite Exists_exists in Hnone.
      assert (w0 = a) as -> by (apply elem_of_cons in Hw0 as [?|?]; [done|]; exfalso; eauto).
      exists a. split; [left|]. split; [done|].
      intros p Hp Htp. apply elem_of_cons in Hp as [->|Hp].
      * apply closer_to_edge_irrefl.
      * exfalso; eauto.
Qed.

(** C2 (amended).  [IsBottomToast] answers true exactly when no visible
    peer lies strictly closer to the taskbar edge (a strictly smaller top
    for a top taskbar, a strictly greater bottom otherwise).  Hence, among
    the live instances, at least one is the anchor whenever one exists, and
    exactly one when no two instances share their edge-side coordinate. *)
Theorem anchor_characterised edge (ws : list Window) :
  (forall self myRect,
     IsBottomToast edge (GetOtherToasts edge self ws) myRect = true <->
     forall p, p ∈ ws -> w_hwnd p <> self -> is_toast p ->
       if edge =? ABE_TOP then ~ top (w_rect p) < top myRect
       else ~ bottom (w_rect p) > bottom myRect) /\
  ((exists w, w ∈ ws /\ is_toast w) ->
   (exists w, w ∈ ws /\ is_toast w /\ instance_isAnchor edge ws w = true) /\
   ((forall a b, a ∈ ws -> b ∈ ws -> is_toast a -> is_toast b ->
       w_hwnd a <> w_hwnd b ->
       edge_coordinate edge (w_rect a) <> edge_coordinate edge (w_rect b)) ->
    exactly_one_anchor edge ws)).
Proof.
  split.
  - intros self myRect. rewrite IsBottomToast_true. split.
    + intros H p Hp Hne Ht.
      specialize (H (mkToastInfo (w_hwnd p) (w_rect p))).
      unfold closer_to_edge in H. simpl in H.
      destruct (edge =? ABE_TOP); apply H, elem_of_GetOtherToasts; by exists p.
    + intros H t Ht. apply elem_of_GetOtherToasts in Ht as (p & Hp & Hne & Htoast & ->).
      specialize (H p Hp Hne Htoast). unfold closer_to_edge. simpl.
      by destruct (edge =? ABE_TOP).
  - intros Hex. destruct (extreme_toast_exists edge ws Hex) as (w & Hw & Htw & Hbest).
    assert (Hanchor : instance_isAnchor edge ws w = true).
    { apply instance_isAnchor_true. intros p Hp _ Htp. by apply Hbest. }
    split; [by exists w|].
    intros Hdistinct. exists w. split; [done|]. split; [done|]. split; [done|].
    intros w' Hw' Htw' Hanchor'.
    destruct (decide (w_hwnd w' = w_hwnd w)) as [|Hne]; [done|]. exfalso.
    rewrite instance_isAnchor_true in Hanchor, Hanchor'.
    specialize (Hanchor w' Hw' Hne Htw').
    specialize (Hanchor' w Hw (not_eq_sym Hne) Htw).
    specialize (Hdistinct w' w Hw' Hw Htw' Htw Hne).
    rewrite closer_to_edge_coordinate in Hanchor, Hanchor'.
    destruct (edge =? ABE_TOP); lia.
Qed.

Lemma anchor_characterised_witness :
  exactly_one_anchor ABE_BOTTOM [toast_at 101 920; toast_at 102 840].
Proof.
  apply (anchor_characterised ABE_BOTTOM [toast_at 101 920; toast_at 102 840]).
  - exists (toast_at 101 920). split; [left | done].
  - intros a b Ha Hb _ _ Hne.
    apply elem_of_cons in Ha as [->|Ha]; [|apply list_elem_of_singleton in Ha as ->];
    (apply elem_of_cons in Hb as [->|Hb]; [|apply list_elem_of_singleton in Hb as ->]);
    done.
Defined.

(** C2, as stated, fails at a tie: two instances that occupy the same
    coordinates (the creation race) are both anchors. *)
Lemma two_anchors_at_a_tie :
  let ws := [toast_at 101 920; toast_at 102 920] in
  (exists w, w ∈ ws /\ is_toast w) /\
  instance_isAnchor ABE_BOTTOM ws (toast_at 101 920) = true /\
  instance_isAnchor ABE_BOTTOM ws (toast_at 102 920) = true /\
  ~ exactly_one_anchor ABE_BOTTOM ws.
Proof.
  intros ws. split; [exists (toast_at 101 920); split; [left | done]|].
  assert (H1 : instance_isAnchor ABE_BOTTOM ws (toast_at 101 920) = true) by by vm_compute.
  assert (H2 : instance_isAnchor ABE_BOTTOM ws (toast_at 102 920) = true) by by vm_compute.
  split; [done|]. split; [done|].
  intros (w & _ & _ & _ & Huniq).
  assert (E1 := Huniq (toast_at 101 920) ltac:(left) ltac:(done) H1).
  assert (E2 := Huniq (toast_at 102 920) ltac:(right; left) ltac:(done) H2).
  simpl in E1, E2. lia.
Qed.

(** ** The stacked position *)

Lemma highestTop_fold (toasts : list ToastInfo) : forall start,
  let m := fold_left (fun highestTop t =>
                        if top (rect t) <? highestTop then top (rect t) else highestTop)
                     toasts start in
  m <= start /\ (forall t, t ∈ toasts -> m <= top (rect t)) /\
  (m = start \/ exists t, t ∈ toasts /\ m = top (rect t)).
Proof.
  induction toasts as [|a l IH]; intros start; cbn.
  - split; [lia|]. split; [|by left]. intros t Ht. by apply elem_of_nil in Ht.
  - specialize (IH (if top (rect a) <? start then top (rect a) else start)).
    cbv zeta in IH. destruct IH as (Hle & Hall & Hwit).
    destruct (Z.ltb_spec (top (rect a)) start).
    + split; [lia|]. split.
      * intros t Ht. apply elem_of_cons in Ht as [->|Ht]; [lia | by apply Hall].
      * right. destruct Hwit as [->|(t & Ht & ->)]; [exists a | exists t];
          (split; [|done]); [left | by right].
    + split; [lia|]. split.
      * intros t Ht. apply elem_of_cons in Ht as [->|Ht]; [lia | by apply Hall].
      * destruct Hwit as [->|(t & Ht & ->)]; [by left|right].
        exists t. split; [by right | done].
Qed.

Lemma lowestBottom_fold (toasts : list ToastInfo) : forall start,
  let m := fold_left (fun lowestBottom t =>
                        if lowestBottom <? bottom (rect t) then bottom (rect t)
                        else lowestBottom)
                     toasts start in
  start <= m /\ (forall t, t ∈ toasts -> bottom (rect t) <= m) /\
  (m = start \/ exists t, t ∈ toasts /\ m = bottom (rect t)).
Proof.
  induction toasts as [|a l IH]; intros start; cbn.
  - split; [lia|]. split; [|by left]. intros t Ht. by apply elem_of_nil in Ht.
  - specialize (IH (if start <? bottom (rect a) then bottom (rect a) else start)).
    cbv zeta in IH. destruct IH as (Hle & Hall & Hwit).
    destruct (Z.ltb_spec start (bottom (rect a))).
    + split; [lia|]. split.
      * intros t Ht. apply elem_of_cons in Ht as [->|Ht]; [lia | by apply Hall].
      * right. destruct Hwit as [->|(t & Ht & ->)]; [exists a | exists t];
          (split; [|done]); [left | by right].
    + split; [lia|]. split.
      * intros t Ht. apply elem_of_cons in Ht as [->|Ht]; [lia | by apply Hall].
      * destruct Hwit as [->|(t & Ht & ->)]; [by left|right].
        exists t. split; [by right | done].
Qed.

(** C3 (amended).  With no peers [CalculateStackedY] is [GetBaseY].  With
    peers, for admissible coordinates, the new toast is clear of every peer
    on the side away from the taskbar edge, and when a peer reaches into the
    work area from the edge the new coordinate is not the base one and has
    zero gap to the peer farthest from the edge. *)
Theorem stacked_position edge wa (toasts : list ToastInfo) :
  coord_ok (bottom wa) ->
  (forall t, t ∈ toasts -> coord_ok (top (rect t))) ->
  let y := CalculateStackedY edge wa toasts in
  (toasts = [] -> y = GetBaseY edge wa) /\
  (toasts <> [] ->
   (forall t, t ∈ toasts ->
      clear_of y (rect t) /\
      if edge =? ABE_TOP then bottom (rect t) <= y
      else y + g_windowHeight <= top (rect t)) /\
   ((exists t, t ∈ toasts /\
       if edge =? ABE_TOP then top wa < bottom (rect t)
       else top (rect t) < bottom wa) ->
    y <> GetBaseY edge wa /\
    exists far, far ∈ toasts /\ y = adjacent_away edge (rect far) /\
      forall t, t ∈ toasts ->
        if edge =? ABE_TOP then bottom (rect t) <= bottom (rect far)
        else top (rect far) <= top (rect t))).
Proof.
  intros Hwa Hts y. split; [intros ->; reflexivity|]. intros Hne.
  subst y. unfold CalculateStackedY, GetBaseY, adjacent_away, clear_of.
  destruct toasts as [|t0 l]; [done|]. set (ts := t0 :: l) in *. clearbody ts.
  destruct (edge =? ABE_TOP).
  - destruct (lowestBottom_fold ts (top wa)) as (Hle & Hall & Hwit).
    set (m := fold_left _ ts (top wa)) in *. split.
    + intros t Ht. specialize (Hall t Ht). lia.
    + intros (t & Ht & Hocc). specialize (Hall t Ht) as Ht'. split; [lia|].
      destruct Hwit as [E|(far & Hfar & E)]; [lia|].
      exists far. split; [done|]. split; [done|].
      intros t' Hin. specialize (Hall t' Hin). lia.
  - destruct (highestTop_fold ts (bottom wa)) as (Hle & Hall & Hwit).
    set (m := fold_left _ ts (bottom wa)) in *.
    assert (Hm : coord_ok m).
    { destruct Hwit as [->|(t & Ht & ->)]; auto. }
    unfold coord_ok, int_sub, g_windowHeight in *.
    rewrite !wrap32_id by (unfold int_range; lia). split.
    + intros t Ht. specialize (Hall t Ht). lia.
    + intros (t & Ht & Hocc). specialize (Hall t Ht) as Ht'. split; [lia|].
      destruct Hwit as [E|(far & Hfar & E)]; [lia|].
      exists far. split; [done|]. split; [lia|].
      intros t' Hin. specialize (Hall t' Hin). lia.
Qed.

Lemma stacked_position_witness :
  let peers := GetOtherToasts ABE_BOTTOM 0 [toast_at 101 920; toast_at 102 840] in
  CalculateStackedY ABE_BOTTOM (mkRECT 0 0 1920 1000) peers
    <> GetBaseY ABE_BOTTOM (mkRECT 0 0 1920 1000).
Proof.
  intros peers.
  assert (Hp : peers = [mkToastInfo 101 (mkRECT 1620 920 1920 1000);
                        mkToastInfo 102 (mkRECT 1620 840 1920 920)]) by by vm_compute.
  apply (stacked_position ABE_BOTTOM (mkRECT 0 0 1920 1000) peers).
  - unfold coord_ok. simpl. lia.
  - rewrite Hp. intros t Ht.
    apply elem_of_cons in Ht as [->|Ht]; [|apply list_elem_of_singleton in Ht as ->];
      unfold coord_ok; simpl; lia.
  - by rewrite Hp.
  - exists (mkToastInfo 101 (mkRECT 1620 920 1920 1000)). rewrite Hp.
    split; [left | simpl; lia].
Defined.

(** C3, as stated, fails with two peers: the new toast is stacked on the
    peer farthest from the edge (at 760), not next to the closest one (at
    840, where it would cover the second peer). *)
Lemma stacked_not_next_to_closest_peer :
  let peers := GetOtherToasts ABE_BOTTOM 0 [toast_at 101 920; toast_at 102 840] in
  exists closest second,
    peers = [closest; second] /\
    closer_to_edge ABE_BOTTOM (rect closest) (rect second) /\
    CalculateStackedY ABE_BOTTOM (mkRECT 0 0 1920 1000) peers = 760 /\
    adjacent_away ABE_BOTTOM (rect closest) = 840 /\
    ~ clear_of 840 (rect second).
Proof.
  intros peers.
  exists (mkToastInfo 101 (mkRECT 1620 920 1920 1000)),
         (mkToastInfo 102 (mkRECT 1620 840 1920 920)).
  split; [by vm_compute|]. split; [by vm_compute|].
  split; [by vm_compute|]. split; [by vm_compute|].
  unfold clear_of, g_windowHeight. simpl. lia.
Qed.

(** ** Running the window procedure *)

Lemma bind_run {A B} (m : Act A) (f : A -> Act B) st :
  (m ≫= f) st = ((f (m st).1.1 (m st).1.2).1.1, (f (m st).1.1 (m st).1.2).1.2,
                 (m st).2 ++ (f (m st).1.1 (m st).1.2).2).
Proof. reflexivity. Qed.

Lemma emit_each_run (f : ToastInfo -> Effect) (l : list ToastInfo) st :
  fold_right (fun t k => emit (f t) ;; k) skip l st = (tt, st, map f l).
Proof.
  induction l as [|t l IH]; [reflexivity|].
  cbn [fold_right map]. rewrite bind_run. cbv beta. cbn [emit fst snd].
  rewrite IH. reflexivity.
Qed.

Lemma NotifyOtherToastsClosing_run g sys st :
  NotifyOtherToastsClosing g sys st = (tt, st, closing_broadcast g sys (top (win_rect st))).
Proof.
  unfold NotifyOtherToastsClosing, closing_broadcast.
  rewrite bind_run. cbv beta. cbn [gets fst snd].
  rewrite (emit_each_run (fun t => PostMessage (hwnd t) WM_TOAST_CHECK_POSITION
                                               (to_WPARAM (top (win_rect st))) 0)).
  reflexivity.
Qed.

Lemma NotifyAllToastsPauseTimer_run g sys pause st :
  NotifyAllToastsPauseTimer g sys pause st = (tt, st, pause_broadcast g sys pause).
Proof.
  unfold NotifyAllToastsPauseTimer, pause_broadcast.
  rewrite bind_run. cbv beta. cbn [emit fst snd].
  rewrite (emit_each_run (fun t => PostMessage (hwnd t) WM_TOAST_PAUSE_TIMER
                                               (if pause then 1 else 0) 0)).
  reflexivity.
Qed.

Lemma DestroyWindow_run st :
  DestroyWindow st =
  (tt, set_win_quit true (set_win_destroyed true (set_win_visible false st)),
   [PostQuitMessage]).
Proof. reflexivity. Qed.

(** Evaluation of a sequence of actions on a symbolic state. *)
Ltac run_actions :=
  cbv zeta;
  repeat (rewrite !bind_run; cbv beta);
  rewrite ?NotifyOtherToastsClosing_run, ?NotifyAllToastsPauseTimer_run, ?DestroyWindow_run;
  cbn.

Lemma closing_broadcast_posts g sys y :
  List.filter is_PostMessage (closing_broadcast g sys y) = closing_broadcast g sys y.
Proof.
  unfold closing_broadcast. induction (OtherToasts g sys) as [|t l IH]; [done|].
  cbn. by rewrite IH.
Qed.

Lemma closing_broadcast_reaches g sys y w :
  w ∈ windows sys -> w_hwnd w <> g_hwnd g -> is_toast w ->
  PostMessage (w_hwnd w) WM_TOAST_CHECK_POSITION (to_WPARAM y) 0
    ∈ closing_broadcast g sys y.
Proof.
  intros Hw Hne Ht. unfold closing_broadcast.
  apply list_elem_of_In, in_map_iff.
  exists (mkToastInfo (w_hwnd w) (w_rect w)). split; [done|].
  apply list_elem_of_In, elem_of_GetOtherToasts. by exists w.
Qed.

Lemma ActivateWindow_run g sys st :
  (ActivateWindow g sys st).1.2 = st /\
  List.filter is_PostMessage (ActivateWindow g sys st).2 = [].
Proof.
  unfold ActivateWindow, SwitchToWindowsTerminalTab, when.
  repeat match goal with
         | |- context [if ?b then _ else _] => destruct b
         | |- context [match ?o with Some _ => _ | None => _ end] => destruct o
         end; split; reflexivity.
Qed.

Lemma to_WPARAM_int closedY : int_range closedY -> wrap32 (to_WPARAM closedY) = closedY.
Proof.
  unfold int_range, wrap32, to_WPARAM. intros H.
  Z.to_euclidean_division_equations. lia.
Qed.

Lemma check_became_bottom_position g sys st :
  let st' := (check_became_bottom g sys st).1.2 in
  g_targetY st' = g_targetY st /\ win_rect st' = win_rect st /\
  win_timers st' !! TIMER_REPOSITION = win_timers st !! TIMER_REPOSITION.
Proof.
  unfold check_became_bottom, when. run_actions.
  destruct (IsBottomToast _ _ _ && negb _); run_actions; [|done].
  split; [done|]. split; [done|].
  rewrite lookup_insert_ne, lookup_delete_ne; done.
Qed.

(** The tests of the message switch on closed numbers are decided. *)
Ltac decide_tests :=
  repeat match goal with
  | |- context [?a =? ?b] =>
    let v := eval vm_compute in (a =? b) in
    match v with
    | true => change (a =? b) with true
    | false => change (a =? b) with false
    end
  end; cbv iota.

Lemma HideWindow_run g st :
  HideWindow g st = (tt, set_win_visible false st, [ShowWindow (g_hwnd g) SW_HIDE]).
Proof. reflexivity. Qed.

(** ** Closing and reflow *)

(** C4.  Every closing path of an instance (end of the fade, the close
    button or a primary click, a right-click) posts the same broadcast, the
    closing instance's top coordinate to each discovered peer, and nothing
    else, and destroys the window; every other visible toast window is among
    the recipients.  A peer that receives the broadcast and sits farther
    from the taskbar edge than the closed rectangle sets its target to its
    own top coordinate shifted by one notification-height toward the edge and
    arms the reposition timer; a peer that does not sit farther keeps its
    target, rectangle and reposition timer. *)
Theorem closing_broadcast_and_reflow g sys st :
  (forall msg wParam lParam,
     (msg = WM_TIMER /\ wParam = TIMER_FADE /\ g_alpha st <= g_fadeStep g) \/
     msg = WM_LBUTTONUP \/ msg = WM_RBUTTONUP ->
     let r := WndProc g sys msg wParam lParam st in
     List.filter is_PostMessage r.2 = closing_broadcast g sys (top (win_rect st)) /\
     win_destroyed r.1.2 = true) /\
  (forall w, w ∈ windows sys -> w_hwnd w <> g_hwnd g -> is_toast w ->
     PostMessage (w_hwnd w) WM_TOAST_CHECK_POSITION (to_WPARAM (top (win_rect st))) 0
       ∈ closing_broadcast g sys (top (win_rect st))) /\
  (forall closedY lParam,
     int_range closedY -> coord_ok (top (win_rect st)) ->
     let st' := (WndProc g sys WM_TOAST_CHECK_POSITION (to_WPARAM closedY) lParam st).1.2 in
     win_rect st' = win_rect st /\
     (farther_from_edge (g_taskbarEdge g) (win_rect st) closedY ->
      g_targetY st' = shifted_toward_edge (g_taskbarEdge g) (top (win_rect st)) /\
      win_timers st' !! TIMER_REPOSITION = Some 16) /\
     (~ farther_from_edge (g_taskbarEdge g) (win_rect st) closedY ->
      g_targetY st' = g_targetY st /\
      win_timers st' !! TIMER_REPOSITION = win_timers st !! TIMER_REPOSITION)).
Proof.
  split; [|split].
  - intros msg wParam lParam [(-> & -> & Hfade)|[-> | ->]]; unfold WndProc; decide_tests.
    + run_actions. destruct (Z.ltb_spec (g_fadeStep g) (g_alpha st)); [lia|].
      run_actions. rewrite List.filter_app, closing_broadcast_posts. cbn.
      by rewrite app_nil_r.
    + destruct (IsPointInCloseButton _ _); run_actions.
      * rewrite List.filter_app, closing_broadcast_posts. cbn. by rewrite app_nil_r.
      * rewrite HideWindow_run. cbn [fst snd].
        rewrite !List.filter_app, closing_broadcast_posts.
        rewrite (proj2 (ActivateWindow_run g sys _)). cbn. by rewrite app_nil_r.
    + run_actions. rewrite List.filter_app, closing_broadcast_posts. cbn.
      by rewrite app_nil_r.
  - intros w. apply closing_broadcast_reaches.
  - intros closedY lParam HclosedY Htop.
    remember (to_WPARAM closedY) as wp eqn:Ewp. unfold WndProc. decide_tests. subst wp.
    rewrite to_WPARAM_int by done. cbv zeta. rewrite bind_run. cbv beta.
    cbn [gets fst snd]. rewrite bind_run. cbv beta. cbn [fst snd].
    match goal with |- context [check_became_bottom g sys ?s] =>
      destruct (check_became_bottom_position g sys s) as (E1 & E2 & E3) end.
    cbv zeta in E1, E2, E3. rewrite E1, E2, E3. clear E1 E2 E3.
    unfold farther_from_edge, shifted_toward_edge, when, int_sub, int_add.
    unfold coord_ok, g_windowHeight in *.
    destruct (g_taskbarEdge g =? ABE_TOP);
      [destruct (Z.ltb_spec closedY (top (win_rect st)))
      |destruct (Z.ltb_spec (top (win_rect st)) closedY)];
      repeat (rewrite !bind_run; cbv beta);
      cbn [modify SetTimer skip mret Act_ret fst snd g_targetY win_rect win_timers
           set_g_targetY set_win_timers];
      rewrite ?wrap32_id by (unfold int_range; lia);
      (split; [done|]); (split; [intros ?|intros ?]); try lia;
      rewrite ?lookup_insert_eq; done.
Qed.

Lemma closing_broadcast_and_reflow_witness :
  let st := set_win_rect (mkRECT 1620 840 1920 920) initial_toast in
  let st' := (WndProc initial_globals quiet_system WM_TOAST_CHECK_POSITION
                      (to_WPARAM 920) 0 st).1.2 in
  g_targetY st' = 920 /\ win_timers st' !! TIMER_REPOSITION = Some 16.
Proof.
  intros st.
  destruct (closing_broadcast_and_reflow initial_globals quiet_system st) as (_ & _ & H).
  destruct (H 920 0) as (_ & Hf & _).
  - unfold int_range; lia.
  - unfold coord_ok; simpl; lia.
  - apply Hf. unfold farther_from_edge; simpl; lia.
Defined.

(** ** Pause and resume *)

Lemma pause_broadcast_posts g sys pause :
  List.filter is_PostMessage (pause_broadcast g sys pause) = pause_broadcast g sys pause.
Proof.
  unfold pause_broadcast. cbn. f_equal.
  induction (OtherToasts g sys) as [|t l IH]; [done|]. cbn. by rewrite IH.
Qed.

(** C5 (amended).  The first pointer move over an instance posts the pause
    message to the instance itself and to every discovered peer; on receipt
    an instance that is fading returns to the initial opacity and cancels
    its fade tick, and every instance cancels its display timer.  The
    pointer leaving posts the resume message to the instance and every
    peer; on receipt an instance restarts its display timer exactly when
    its recorded anchor flag [g_isBottomToast] is set and the pointer is not
    over it, and is left unchanged otherwise. *)
Theorem pause_and_resume g sys st lParam :
  (* pointer enter *)
  (g_mouseInside st = false ->
   let r := WndProc g sys WM_MOUSEMOVE 0 lParam st in
   List.filter is_PostMessage r.2 = pause_broadcast g sys true /\
   g_mouseInside r.1.2 = true) /\
  (forall w, w ∈ windows sys -> w_hwnd w <> g_hwnd g -> is_toast w ->
     forall pause : bool,
       PostMessage (w_hwnd w) WM_TOAST_PAUSE_TIMER (if pause then 1 else 0) 0
         ∈ pause_broadcast g sys pause) /\
  (* pause received *)
  (forall wParam, wParam <> 0 ->
   let st' := (WndProc g sys WM_TOAST_PAUSE_TIMER wParam lParam st).1.2 in
   win_timers st' !! TIMER_START_FADE = None /\
   (g_isFading st = true ->
    g_isFading st' = false /\ g_alpha st' = INITIAL_ALPHA /\
    win_alpha st' = INITIAL_ALPHA /\ win_timers st' !! TIMER_FADE = None)) /\
  (* pointer leave *)
  (let r := WndProc g sys WM_MOUSELEAVE 0 lParam st in
   r.2 = pause_broadcast g sys false /\ g_mouseInside r.1.2 = false) /\
  (* resume received *)
  (let st' := (WndProc g sys WM_TOAST_PAUSE_TIMER 0 lParam st).1.2 in
   if g_isBottomToast st && negb (g_mouseInside st)
   then st' = set_win_timers (<[TIMER_START_FADE := g_displayMs]> (win_timers st)) st
   else st' = st).
Proof.
  split; [|split; [|split; [|split]]].
  - intros Hout. unfold WndProc. decide_tests. run_actions. rewrite Hout. cbn.
    run_actions. split; [exact (pause_broadcast_posts g sys true) | done].
  - intros w Hw Hne Ht pause. unfold pause_broadcast. right.
    apply list_elem_of_In, in_map_iff.
    exists (mkToastInfo (w_hwnd w) (w_rect w)). split; [done|].
    apply list_elem_of_In, elem_of_GetOtherToasts. by exists w.
  - intros wParam Hw. unfold WndProc. decide_tests.
    apply Z.eqb_neq in Hw. rewrite Hw. cbn [negb]. cbv iota zeta. unfold when.
    rewrite !bind_run. cbv beta. cbn [gets fst snd].
    destruct (g_isFading st);
      repeat (rewrite !bind_run; cbv beta);
      cbn [KillTimer modify skip mret Act_ret fst snd win_timers set_win_timers
           set_g_isFading set_g_alpha SetLayeredWindowAttributes set_win_alpha
           g_isFading g_alpha win_alpha];
      (split; [apply lookup_delete_eq|]); [|done].
    intros _. repeat split.
    rewrite lookup_delete_ne by done. apply lookup_delete_eq.
  - unfold WndProc. decide_tests. by run_actions.
  - unfold WndProc. decide_tests. cbn [negb]. cbv iota zeta. unfold when.
    repeat (rewrite !bind_run; cbv beta; cbn [gets fst snd]).
    by destruct (g_isBottomToast st && negb (g_mouseInside st)).
Qed.

Lemma pause_and_resume_witness :
  g_mouseInside (WndProc initial_globals quiet_system WM_MOUSEMOVE 0 0 initial_toast).1.2 = true /\
  win_timers (WndProc initial_globals quiet_system WM_TOAST_PAUSE_TIMER 1 0 initial_toast).1.2
    !! TIMER_START_FADE = None.
Proof.
  destruct (pause_and_resume initial_globals quiet_system initial_toast 0)
    as (Henter & _ & Hpause & _).
  split.
  - apply Henter. reflexivity.
  - destruct (Hpause 1) as [Hstop _]; [lia | exact Hstop].
Defined.

(** C5, as stated, fails where the recorded flag and the live test differ:
    an instance created above a peer has its flag clear; once that peer is
    gone [IsBottomToast] answers true for it, yet a resume message does not
    restart its display timer. *)
Lemma resume_ignores_live_anchor :
  let sys1 := with_windows [toast_at 101 920] quiet_system in
  exists g st, ShowToast_init sys1 initial_globals = (g, Some st) /\
    g_isBottomToast st = false /\
    g_mouseInside st = false /\
    IsBottomToast (g_taskbarEdge g) (OtherToasts g quiet_system) (win_rect st) = true /\
    let st' := (WndProc g quiet_system WM_TOAST_PAUSE_TIMER 0 0 st).1.2 in
    win_timers st' !! TIMER_START_FADE = None.
Proof.
  intros sys1. eexists _, _. split; [reflexivity|].
  split; [by vm_compute|]. split; [by vm_compute|]. split; [by vm_compute|].
  by vm_compute.
Qed.

(** ** Lines of text *)

Lemma c_str_no_nul s : no_nul (c_str s).
Proof.
  unfold no_nul. induction s as [|c s IH]; cbn; [constructor|].
  destruct (N.eqb_spec c 0); constructor; done.
Qed.

Lemma c_str_id s : no_nul s -> c_str s = s.
Proof.
  induction 1 as [|c s Hc _ IH]; cbn; [done|].
  destruct (N.eqb_spec c 0); [done|]. by rewrite IH.
Qed.

Lemma strip_eol_newline l : strip_eol (l ++ [WLF]) = strip_eol l.
Proof. induction l as [|c l IH]; cbn; [done|]. by rewrite IH. Qed.

Lemma strip_eol_id l : single_line l -> strip_eol l = l.
Proof.
  induction 1 as [|c l [Hc1 Hc2] _ IH]; cbn; [done|]. rewrite IH.
  destruct l; [|done]. unfold is_eol.
  destruct (N.eqb_spec c WLF); [done|]. destruct (N.eqb_spec c WCR); done.
Qed.

Lemma read_line_newline (l rest : wstring) : forall k,
  no_newline l -> (length l < k)%nat ->
  read_line k (l ++ WLF :: rest) = (l ++ [WLF], rest).
Proof.
  induction l as [|c l IH]; intros k Hl Hk.
  - destruct k; [cbn in Hk; lia|]. reflexivity.
  - destruct k; [cbn in Hk; lia|]. inversion Hl as [|? ? Hc Hl']; subst.
    cbn. destruct (N.eqb_spec c WLF); [done|].
    rewrite IH by (cbn in Hk; done || lia). reflexivity.
Qed.

(** What [fgetws] yields at most once per line never holds a newline before
    its end, so the stripped line holds none. *)
Lemma read_line_no_newline_inside k : forall f,
  no_newline (strip_eol (c_str (read_line k f).1)).
Proof.
  induction k as [|k IH]; intros f; [constructor|].
  destruct f as [|c f]; [constructor|]. cbn.
  destruct (N.eqb_spec c WLF) as [->|Hc]; [constructor|].
  cbn. destruct (N.eqb_spec c 0); [constructor|].
  specialize (IH f). unfold no_newline in *. cbn.
  destruct (strip_eol (c_str (read_line k f).1)) eqn:E.
  - destruct (is_eol c); constructor; [done | constructor].
  - by constructor.
Qed.

(** Reading one well-formed line. *)
Lemma next_line_of_line (l rest : wstring) :
  no_nul l -> no_newline l -> (length l < 2047)%nat ->
  next_line (l ++ WLF :: rest) = (Some (strip_eol l), rest).
Proof.
  intros Hn Hl Hk. unfold next_line, fgetws.
  destruct (l ++ WLF :: rest) eqn:E; [by destruct l|]. rewrite <- E.
  change (2048 - 1)%nat with 2047%nat. rewrite read_line_newline by done.
  rewrite c_str_id, strip_eol_newline; [done|].
  unfold no_nul. apply Forall_app. split; [done|]. by repeat constructor.
Qed.

(** ** The handle on the first line *)

Definition digit_or_minus (c : wchar_t) : Prop := iswdigit c = true \/ c = 45%N.

Lemma digit_char n :
  0 <= n < 10 ->
  iswdigit (Z.to_N (48 + n)) = true /\ Z.of_N (Z.to_N (48 + n)) - 48 = n.
Proof.
  intros H. split.
  - unfold iswdigit. apply andb_true_iff. split; apply N.leb_le; lia.
  - rewrite Z2N.id by lia. lia.
Qed.

Lemma digits_of_value (fuel : nat) : forall n acc,
  0 <= n < 10 ^ Z.of_nat fuel ->
  wtoi_digits (digits_of fuel n acc) 0 = wtoi_digits acc n.
Proof.
  induction fuel as [|fuel IH]; intros n acc Hn.
  - cbn in *. by replace n with 0 by lia.
  - cbn [digits_of]. assert (Hd : 0 <= n mod 10 < 10) by (apply Z.mod_pos_bound; lia).
    destruct (digit_char _ Hd) as [Hdig Hval].
    destruct (Z.ltb_spec n 10) as [Hlt|Hge].
    + cbn [wtoi_digits]. rewrite Hdig, Hval. rewrite Z.mod_small by lia. done.
    + rewrite IH.
      * cbn [wtoi_digits]. rewrite Hdig, Hval. f_equal.
        rewrite (Z.div_mod n 10) at 3 by lia. lia.
      * rewrite Nat2Z.inj_succ, Z.pow_succ_r in Hn by lia.
        split; [apply Z.div_pos; lia|]. apply Z.div_lt_upper_bound; lia.
Qed.

Lemma digits_of_chars (fuel : nat) : forall n acc,
  0 <= n -> Forall (fun c => iswdigit c = true) acc ->
  Forall (fun c => iswdigit c = true) (digits_of fuel n acc).
Proof.
  induction fuel as [|fuel IH]; intros n acc Hn Hacc; [done|].
  cbn [digits_of]. assert (Hd : 0 <= n mod 10 < 10) by (apply Z.mod_pos_bound; lia).
  destruct (digit_char _ Hd) as [Hdig _].
  destruct (n <? 10); [by constructor|].
  apply IH; [apply Z.div_pos; lia | by constructor].
Qed.

Lemma digits_of_length (fuel : nat) : forall n acc,
  (1 <= length (digits_of (S fuel) n acc) <= S fuel + length acc)%nat.
Proof.
  induction fuel as [|fuel IH]; intros n acc.
  - cbn. destruct (n <? 10); cbn; lia.
  - change (digits_of (S (S fuel)) n acc) with
      (let acc' := Z.to_N (48 + n mod 10) :: acc in
       if n <? 10 then acc' else digits_of (S fuel) (n / 10) acc').
    cbv zeta. destruct (n <? 10); [cbn; lia|].
    specialize (IH (n / 10) (Z.to_N (48 + n mod 10) :: acc)). cbn [length] in IH. lia.
Qed.

Lemma iswdigit_plain c :
  iswdigit c = true ->
  c <> 0%N /\ c <> WLF /\ c <> WCR /\ iswspace c = false /\
  (c =? 45)%N = false /\ (c =? 43)%N = false.
Proof.
  unfold iswdigit, iswspace, WLF, WCR. intros H.
  apply andb_true_iff in H as [H1 H2]. apply N.leb_le in H1, H2.
  repeat split; try lia.
  - apply orb_false_iff. split; [apply N.eqb_neq; lia|].
    apply andb_false_iff. right. apply N.leb_gt. lia.
  - apply N.eqb_neq. lia.
  - apply N.eqb_neq. lia.
Qed.

Lemma print_lld_chars v : Forall digit_or_minus (print_lld v).
Proof.
  unfold print_lld. destruct (Z.ltb_spec v 0).
  - constructor; [by right|].
    eapply Forall_impl; [apply digits_of_chars; [lia | constructor]|].
    intros c Hc. by left.
  - eapply Forall_impl; [apply digits_of_chars; [lia | constructor]|].
    intros c Hc. by left.
Qed.

Lemma print_lld_line v :
  no_nul (print_lld v) /\ single_line (print_lld v) /\ (length (print_lld v) < 2047)%nat.
Proof.
  split; [|split].
  - eapply Forall_impl; [apply print_lld_chars|]. intros c [Hc| ->]; [|done].
    by apply iswdigit_plain in Hc as (? & _).
  - eapply Forall_impl; [apply print_lld_chars|]. intros c [Hc| ->]; [|done].
    apply iswdigit_plain in Hc as (_ & ? & ? & _). done.
  - unfold print_lld. pose proof (digits_of_length 19 v []) as H1.
    pose proof (digits_of_length 19 (- v) []) as H2.
    destruct (v <? 0); cbn [length] in *; lia.
Qed.

(** The handle survives the trip through its decimal text. *)
Lemma wtoi64_print_lld v : int64_range v -> _wtoi64 (print_lld v) = v.
Proof.
  unfold int64_range. intros Hv. unfold _wtoi64, print_lld.
  destruct (Z.ltb_spec v 0) as [Hneg|Hpos].
  - cbn [skip_space]. change (iswspace 45%N) with false. cbv iota.
    change (45 =? 45)%N with true. cbv iota.
    rewrite digits_of_value by (change (10 ^ Z.of_nat 20) with 100000000000000000000; lia).
    cbn [wtoi_digits]. unfold clamp64. lia.
  - pose proof (digits_of_length 19 v []) as Hlen.
    pose proof (digits_of_chars 20 v [] Hpos ltac:(constructor)) as Hch.
    pose proof (digits_of_value 20 v []) as Hval.
    unfold wchar_t, wstring in *.
    remember (digits_of 20 v []) as ds eqn:Eds. clear Eds.
    destruct ds as [|c d]; [cbn in Hlen; lia|].
    apply Forall_cons in Hch as [Hc _].
    apply iswdigit_plain in Hc as (_ & _ & _ & Hsp & Hm & Hp).
    cbn [skip_space]. rewrite Hsp, Hm, Hp.
    rewrite Hval by (change (10 ^ Z.of_nat 20) with 100000000000000000000; lia).
    cbn [wtoi_digits]. unfold clamp64. lia.
Qed.

(** ** Writing and reading the state file *)

Lemma first_line_split u :
  no_newline (first_line u) /\ (length (first_line u) <= length u)%nat /\
  exists r, u ++ [WLF] = first_line u ++ WLF :: r.
Proof.
  induction u as [|c u (IH1 & IH2 & r & IH3)]; cbn.
  - split; [constructor|]. split; [lia|]. by exists [].
  - destruct (N.eqb_spec c WLF) as [->|Hc].
    + split; [constructor|]. split; [cbn; lia|]. by exists (u ++ [WLF]).
    + split; [by constructor|]. split; [cbn; lia|]. exists r. cbn. by rewrite IH3.
Qed.

Lemma first_line_id u : no_newline u -> first_line u = u.
Proof.
  induction 1 as [|c u Hc _ IH]; cbn; [done|].
  destruct (N.eqb_spec c WLF); [done|]. by rewrite IH.
Qed.

(** The first line of a text is what stands before its first newline. *)
Lemma first_line_prefix (pre post : wstring) :
  no_nul pre -> no_newline pre ->
  first_line (c_str (pre ++ WLF :: post)) = pre.
Proof.
  intros Hn Hl. induction pre as [|c pre IH]; [done|].
  apply Forall_cons in Hn as [Hc0 Hn]. apply Forall_cons in Hl as [Hc1 Hl].
  cbn. destruct (N.eqb_spec c 0); [done|]. cbn.
  destruct (N.eqb_spec c WLF); [done|]. by rewrite IH.
Qed.

Lemma first_line_no_nul u : no_nul u -> no_nul (first_line u).
Proof.
  induction 1 as [|c u Hc _ IH]; cbn; [constructor|].
  destruct (c =? WLF)%N; by constructor.
Qed.

Lemma single_line_no_newline u : single_line u -> no_newline u.
Proof. intros H. eapply Forall_impl; [exact H|]. by intros c [? _]. Qed.

(** Reading the last line of the file: whatever follows the first newline
    of the text is not read. *)
Lemma next_line_of_text (u : wstring) :
  no_nul u -> (length u < 2047)%nat ->
  (next_line (u ++ [WLF])).1 = Some (strip_eol (first_line u)).
Proof.
  intros Hn Hlen. destruct (first_line_split u) as (H1 & H2 & r & ->).
  rewrite next_line_of_line; [done | by apply first_line_no_nul | done | lia].
Qed.

Lemma SaveState_fs (sys : System) (stdin : list N) (g : Globals) (fs : FS) :
  (SaveState sys stdin g fs).2 =
  let k := ExtractJsonStringValue sys stdin "session_id" in
  let hwnd := if (g_immediateHwnd g =? 0) || negb (IsWindow sys (g_immediateHwnd g))
              then GetForegroundWindow sys else g_immediateHwnd g in
  if bool_decide (k = []) then fs
  else if negb (wfopen_w sys (c_str (GetStateFilePath sys k))) then fs
  else <[c_str (GetStateFilePath sys k) :=
           state_file hwnd (selected_tab_runtimeId sys hwnd) (FindCallerExePath sys)
                      (ExtractJsonStringValue sys stdin "prompt")]> fs.
Proof.
  unfold SaveState. cbv zeta. cbn [g_sessionId set_g_sessionId g_immediateHwnd].
  destruct (bool_decide _); [done|]. destruct (negb _); done.
Qed.

Lemma LoadState_absent (sys : System) (fs : FS) (k : wstring) (g : Globals) :
  fs !! c_str (GetStateFilePath sys k) = None -> LoadState sys fs k g = g.
Proof. intros H. unfold LoadState. cbv zeta. by rewrite H. Qed.

Lemma LoadState_state_file (sys : System) (fs : FS) (k : wstring) (g : Globals)
    (hwnd : HWND) (rid exe t : wstring) :
  fs !! c_str (GetStateFilePath sys k) = Some (state_file hwnd rid exe t) ->
  int64_range hwnd ->
  no_newline (c_str rid) -> (length (c_str rid) < 2047)%nat ->
  no_newline (c_str exe) -> (length (c_str exe) < 2047)%nat ->
  (length (c_str t) < 2047)%nat ->
  LoadState sys fs k g =
  loaded sys hwnd (strip_eol (c_str rid)) (strip_eol (c_str exe))
         (strip_eol (first_line (c_str t))) g.
Proof.
  intros Hfs Hh Hr1 Hr2 He1 He2 Ht.
  destruct (print_lld_line hwnd) as (Hp1 & Hp2 & Hp3).
  unfold LoadState, loaded. cbv zeta. rewrite Hfs. unfold state_file.
  rewrite <- (app_assoc (print_lld hwnd)). cbn [app].
  rewrite next_line_of_line by (done || by apply single_line_no_newline).
  cbn [fst snd]. rewrite strip_eol_id by done. rewrite wtoi64_print_lld by done.
  rewrite <- (app_assoc (c_str rid)). cbn [app].
  rewrite next_line_of_line by (done || apply c_str_no_nul). cbn [fst snd].
  rewrite <- (app_assoc (c_str exe)). cbn [app].
  rewrite next_line_of_line by (done || apply c_str_no_nul). cbn [fst snd].
  rewrite next_line_of_text by (done || apply c_str_no_nul).
  reflexivity.
Qed.

(** ** The entry point, mode by mode *)

Lemma WinMain_record (sys0 sys : System) (stdin : list N)
    (msgs : list (System * (Z * Z * Z))) (fs : FS) :
  WinMain sys0 sys (Some record_argv) stdin msgs fs =
  Some (mkExit 0 (SaveState sys stdin (started sys0) fs).2 []).
Proof.
  unfold WinMain, record_argv. cbn [tail parse_arguments].
  change (bool_decide (L "--save" = L "--save")) with true. cbv iota. cbn [saveMode].
  fold (started sys0). by destruct (SaveState sys stdin (started sys0) fs).
Qed.

Lemma WinMain_second_phase (sys0 sys : System) (b : bool) (k : wstring)
    (stdin : list N) (msgs : list (System * (Z * Z * Z))) (fs : FS) :
  WinMain sys0 sys (Some (second_phase_argv b k)) stdin msgs fs =
  if bool_decide (k = []) then Some (mkExit 1 fs [])
  else
    match ShowToast sys msgs (prepare_notification sys fs (second_phase_globals sys0 b k)) with
    | None => None
    | Some (g, log) =>
      Some (mkExit 0 (delete (c_str (GetStateFilePath sys (g_sessionId g))) fs) log)
    end.
Proof. unfold WinMain, second_phase_argv. fold (started sys0). by destruct b. Qed.

Lemma LoadState_frame (sys : System) (fs : FS) (k : wstring) (g : Globals) :
  let g' := LoadState sys fs k g in
  g_inputMode g' = g_inputMode g /\ g_sessionId g' = g_sessionId g /\
  g_title g' = g_title g /\ g_message g' = g_message g /\
  g_debug g' = g_debug g /\ g_hwnd g' = g_hwnd g.
Proof.
  unfold LoadState. cbv zeta.
  destruct (fs !! c_str (GetStateFilePath sys k)); [|done].
  repeat match goal with
         | |- context [match ?x with Some _ => _ | None => _ end] => destruct x
         | |- context [if ?b then _ else _] => destruct b
         end; done.
Qed.

Lemma ShowToast_init_created sys g :
  CreateWindowExW sys <> 0 ->
  exists st, ShowToast_init sys g = (instance_globals sys g, Some st) /\
             win_quit st = false.
Proof.
  intros Hw. unfold ShowToast_init. cbv zeta.
  cbn [g_hwnd set_g_hwnd]. apply Z.eqb_neq in Hw. rewrite Hw.
  eexists. split; [reflexivity|].
  by destruct (IsBottomToast _ _ _).
Qed.

Lemma WndProc_paint g sys wParam lParam st :
  WndProc g sys WM_PAINT wParam lParam st =
  (tt, st, [DrawTextW (c_str (g_title g)); DrawTextW (c_str (g_message g));
            DrawTextW CLOSE_GLYPH]).
Proof. reflexivity. Qed.

(** ** The displayed message *)

Lemma prepare_notification_fields (sys : System) (fs : FS) (g : Globals) :
  let g0 := LoadState sys fs (g_sessionId g) g in
  let g' := prepare_notification sys fs g in
  g_message g' = truncate_with_ellipsis (replace_newlines (chosen_message g0)) /\
  g_title g' = default_title (g_inputMode g) /\
  g_targetWindowHandle g' = g_targetWindowHandle g0 /\
  g_wtWindowHandle g' = g_wtWindowHandle g0 /\
  g_wtSavedRuntimeId g' = g_wtSavedRuntimeId g0 /\
  g_sessionId g' = g_sessionId g.
Proof.
  destruct (LoadState_frame sys fs (g_sessionId g) g) as (Hin & Hsid & _).
  cbv zeta in *. unfold prepare_notification, chosen_message, default_message, default_title.
  cbv zeta. rewrite Hin.
  destruct (g_inputMode g);
    cbn [g_userPrompt set_g_title];
    destruct (bool_decide (g_userPrompt (LoadState sys fs (g_sessionId g) g) = []));
    cbn [g_message g_title g_targetWindowHandle g_wtWindowHandle g_wtSavedRuntimeId
         g_sessionId g_userPrompt set_g_message set_g_title];
    rewrite ?Hsid; done.
Qed.

Lemma replace_newlines_lookup (m : wstring) (i : nat) (c : wchar_t) :
  m !! i = Some c ->
  replace_newlines m !! i = Some (if is_eol c then WSPACE else c).
Proof.
  unfold replace_newlines. revert i.
  induction m as [|a m IH]; intros [|i] H; try done.
  - cbn in *. by injection H as ->.
  - cbn in *. by apply IH.
Qed.

Lemma replace_newlines_single_line m : single_line (replace_newlines m).
Proof.
  unfold single_line, replace_newlines. apply Forall_forall. intros c Hc.
  apply list_elem_of_In, in_map_iff in Hc as (c0 & <- & _).
  destruct (N.eqb_spec c0 WLF), (N.eqb_spec c0 WCR); done.
Qed.

Lemma replace_newlines_id m : single_line m -> replace_newlines m = m.
Proof.
  unfold replace_newlines. induction 1 as [|c m [H1 H2] _ IH]; cbn; [done|].
  rewrite IH. destruct (N.eqb_spec c WLF), (N.eqb_spec c WCR); done.
Qed.

Lemma truncate_single_line m : single_line m -> single_line (truncate_with_ellipsis m).
Proof.
  intros H. unfold truncate_with_ellipsis. destruct (maxLen <? length m)%nat; [|done].
  apply Forall_app. split.
  - by apply Forall_take.
  - by repeat constructor.
Qed.



(** ** Showing a session that was never recorded *)

Lemma second_phase_globals_fields sys0 b k :
  let g := second_phase_globals sys0 b k in
  g_sessionId g = k /\ g_inputMode g = b /\ g_userPrompt g = [] /\
  g_targetWindowHandle g = 0 /\ g_wtWindowHandle g = 0 /\ g_wtSavedRuntimeId g = [].
Proof. by destruct b. Qed.

Lemma instance_globals_fields sys g :
  let g' := instance_globals sys g in
  g_title g' = g_title g /\ g_message g' = g_message g /\
  g_targetWindowHandle g' = g_targetWindowHandle g /\
  g_wtWindowHandle g' = g_wtWindowHandle g /\
  g_wtSavedRuntimeId g' = g_wtSavedRuntimeId g /\
  g_sessionId g' = g_sessionId g /\ g_hwnd g' = CreateWindowExW sys.
Proof. done. Qed.

Lemma second_phase_exit (sys0 sys : System) (b : bool) (k : wstring) (stdin : list N)
    (msgs : list (System * (Z * Z * Z))) (fs : FS) (e : Exit) :
  k <> [] ->
  WinMain sys0 sys (Some (second_phase_argv b k)) stdin msgs fs = Some e ->
  exit_code e = 0 /\ exit_fs e = delete (c_str (GetStateFilePath sys k)) fs.
Proof.
  intros Hk. rewrite WinMain_second_phase.
  rewrite bool_decide_eq_false_2 by done.
  unfold ShowToast.
  destruct (prepare_notification_fields sys fs (second_phase_globals sys0 b k))
    as (_ & _ & _ & _ & _ & Hsid).
  cbv zeta in Hsid.
  destruct (second_phase_globals_fields sys0 b k) as (Hk' & _). cbv zeta in Hk'.
  rewrite Hk' in Hsid.
  assert (Hinit : g_sessionId (ShowToast_init sys
            (prepare_notification sys fs (second_phase_globals sys0 b k))).1 = k).
  { unfold ShowToast_init. cbv zeta. cbn [g_hwnd set_g_hwnd].
    destruct (CreateWindowExW sys =? 0); exact Hsid. }
  destruct (ShowToast_init sys _) as [g' [st|]]; cbn [fst] in Hinit.
  - destruct (message_loop g' msgs st) as [[st' log]|]; [|done].
    intros [= <-]. cbn. by rewrite Hinit.
  - intros [= <-]. cbn. by rewrite Hinit.
Qed.

Lemma ActivateWindow_nothing g sys st :
  g_targetWindowHandle g = 0 -> g_wtWindowHandle g = 0 ->
  ActivateWindow g sys st = (tt, st, []).
Proof. intros Ht Hw. unfold ActivateWindow. by rewrite Ht, Hw. Qed.

Lemma WndProc_body_click g sys wParam lParam st :
  body_click lParam ->
  (WndProc g sys WM_LBUTTONUP wParam lParam st).2 =
  closing_broadcast g sys (top (win_rect st)) ++
  [ShowWindow (g_hwnd g) SW_HIDE] ++
  (ActivateWindow g sys
     (set_win_visible false
        (set_win_timers (delete TIMER_FADE (delete TIMER_START_FADE (win_timers st)))
           (set_g_clicked true st)))).2 ++ [PostQuitMessage].
Proof.
  unfold body_click. intros Hc. unfold WndProc. decide_tests. cbv zeta. rewrite Hc.
  repeat (rewrite !bind_run; cbv beta).
  rewrite NotifyOtherToastsClosing_run, HideWindow_run, DestroyWindow_run.
  cbn [fst snd KillTimer modify app win_rect set_win_timers set_g_clicked top
       win_timers set_win_visible].
  reflexivity.
Qed.



(** ** Record, then show *)

Lemma message_loop_quit g msgs st :
  win_quit st = true -> message_loop g msgs st = Some (st, []).
Proof. intros H. destruct msgs; cbn; by rewrite H. Qed.

Lemma WndProc_click_quits g sys wParam lParam st :
  win_quit (WndProc g sys WM_LBUTTONUP wParam lParam st).1.2 = true.
Proof.
  unfold WndProc. decide_tests. cbv zeta.
  destruct (IsPointInCloseButton _ _);
    repeat (rewrite !bind_run; cbv beta); by rewrite DestroyWindow_run.
Qed.

Lemma message_loop_click g sys wParam lParam rest st :
  win_quit st = false ->
  exists st' log, message_loop g ((sys, (WM_LBUTTONUP, wParam, lParam)) :: rest) st
                  = Some (st', log).
Proof.
  intros H. cbn [message_loop]. rewrite H.
  rewrite message_loop_quit by apply WndProc_click_quits. eauto.
Qed.

Lemma force_foreground_sets sys h : SetForegroundWindow h ∈ force_foreground sys h.
Proof. unfold force_foreground. do 5 right. left. Qed.

(** A click reaches the recorded window through either activation path. *)
Lemma ActivateWindow_foreground g sys st h :
  g_targetWindowHandle g = h ->
  g_wtWindowHandle g = 0 \/ g_wtWindowHandle g = h ->
  h <> 0 -> IsWindow sys h = true ->
  SetForegroundWindow h ∈ (ActivateWindow g sys st).2.
Proof.
  intros Ht Hw Hh His. unfold ActivateWindow.
  destruct (negb (g_wtWindowHandle g =? 0) &&
            negb (bool_decide (g_wtSavedRuntimeId g = []))) eqn:Hwt.
  - apply andb_true_iff in Hwt as [Hw1 Hw2].
    apply negb_true_iff in Hw1, Hw2. apply Z.eqb_neq in Hw1.
    destruct Hw as [Hw|Hw]; [done|].
    unfold SwitchToWindowsTerminalTab. rewrite Hw2, Hw.
    apply Z.eqb_neq in Hh. rewrite Hh, His. cbn [orb negb].
    repeat (rewrite !bind_run; cbv beta). cbn [emits snd].
    rewrite !elem_of_app. right. right. right. left. apply force_foreground_sets.
  - rewrite Ht. apply Z.eqb_neq in Hh. rewrite Hh, His. cbn [orb negb].
    repeat (rewrite !bind_run; cbv beta). cbn [emits snd].
    rewrite !elem_of_app. right. right. right. apply force_foreground_sets.
Qed.

Lemma loaded_fields sys hwnd l2 l3 l4 g :
  let g' := loaded sys hwnd l2 l3 l4 g in
  g_userPrompt g' = (if (0 <? length l4)%nat then l4 else g_userPrompt g) /\
  g_wtSavedRuntimeId g' = (if (0 <? length l2)%nat then l2 else g_wtSavedRuntimeId g) /\
  (hwnd <> 0 -> IsWindow sys hwnd = true ->
   g_targetWindowHandle g' = hwnd /\
   g_wtWindowHandle g' = (if IsWindowsTerminalWindow sys hwnd then hwnd
                          else g_wtWindowHandle g)).
Proof.
  unfold loaded. cbv zeta. split; [|split].
  - destruct (negb _ && _), (IsWindowsTerminalWindow sys hwnd), (0 <? length l2)%nat,
      (0 <? length l3)%nat, (0 <? length l4)%nat; reflexivity.
  - destruct (negb _ && _), (IsWindowsTerminalWindow sys hwnd), (0 <? length l2)%nat,
      (0 <? length l3)%nat, (0 <? length l4)%nat; reflexivity.
  - intros Hh Hw. apply Z.eqb_neq in Hh. rewrite Hh, Hw. cbn [negb andb].
    destruct (IsWindowsTerminalWindow sys hwnd), (0 <? length l2)%nat,
      (0 <? length l3)%nat, (0 <? length l4)%nat; split; reflexivity.
Qed.

(** Whatever the file holds, the prompt [LoadState] leaves has no newline. *)
Lemma LoadState_no_newline (sys : System) (fs : FS) (k : wstring) (g : Globals) :
  no_newline (g_userPrompt g) -> no_newline (g_userPrompt (LoadState sys fs k g)).
Proof.
  intros Hg. unfold LoadState. cbv zeta.
  destruct (fs !! c_str (GetStateFilePath sys k)) as [f|]; [|done].
  set (g3 := match (next_line (next_line (next_line f).2).2).1 with
             | Some _ => _ | None => _ end).
  assert (Hg3 : g_userPrompt g3 = g_userPrompt g).
  { subst g3.
    repeat match goal with
           | |- context [match ?x with Some _ => _ | None => _ end] => destruct x
           | |- context [if ?b then _ else _] => destruct b
           end; reflexivity. }
  clearbody g3.
  set (f3 := (next_line (next_line (next_line f).2).2).2). clearbody f3.
  unfold next_line, fgetws. destruct f3 as [|c f3]; cbn [fst]; [by rewrite Hg3|].
  pose proof (read_line_no_newline_inside (2048 - 1) (c :: f3)) as Hline.
  destruct (read_line (2048 - 1) (c :: f3)) as [line f']. cbn [fst] in *.
  destruct (0 <? length (strip_eol (c_str line)))%nat; [exact Hline | by rewrite Hg3].
Qed.

Section RoundTrip.

Variables (sys0 sysR sys0' sysS : System) (stdin : list N) (fs : FS) (b : bool).

(** The session key and the prompt of the record payload, the captured
    window, what the system reports about it, the path of the state file, the
    store after the record invocation, and the first line of the prompt as
    [LoadState] delivers it. *)
Local Abbreviation k := (ExtractJsonStringValue sysR stdin "session_id").
Local Abbreviation t := (ExtractJsonStringValue sysR stdin "prompt").
Local Abbreviation surface := (captured_window sys0 sysR).
Local Abbreviation rid := (selected_tab_runtimeId sysR surface).
Local Abbreviation exe := (FindCallerExePath sysR).
Local Abbreviation path := (c_str (GetStateFilePath sysR k)).
Local Abbreviation fs1 := ((SaveState sysR stdin (started sys0) fs).2).
Local Abbreviation p := (strip_eol (first_line (c_str t))).

Hypothesis Hk : k <> [].
Hypothesis Hopen : wfopen_w sysR path = true.
Hypothesis Htemp : GetTempPathW sysS = GetTempPathW sysR.
Hypothesis HS : int64_range surface.
Hypothesis Hrid : no_newline (c_str rid) /\ (length (c_str rid) < 2047)%nat.
Hypothesis Hexe : no_newline (c_str exe) /\ (length (c_str exe) < 2047)%nat.
Hypothesis Ht : (length (c_str t) < 2047)%nat.

Lemma record_writes : fs1 !! path = Some (state_file surface rid exe t).
Proof.
  rewrite SaveState_fs. cbv zeta.
  rewrite bool_decide_eq_false_2 by done. rewrite Hopen. cbn [negb].
  apply lookup_insert_eq.
Qed.

Lemma show_path : c_str (GetStateFilePath sysS k) = path.
Proof. unfold GetStateFilePath. by rewrite Htemp. Qed.

Lemma show_loads g :
  LoadState sysS fs1 k g =
  loaded sysS surface (strip_eol (c_str rid)) (strip_eol (c_str exe)) p g.
Proof.
  destruct Hrid, Hexe.
  apply LoadState_state_file; try done. rewrite show_path. apply record_writes.
Qed.

Lemma show_message :
  g_message (prepare_notification sysS fs1 (second_phase_globals sys0' b k)) =
  truncate_with_ellipsis
    (replace_newlines (if bool_decide (p = []) then default_message b else p)).
Proof.
  destruct (prepare_notification_fields sysS fs1 (second_phase_globals sys0' b k))
    as (Hmsg & _).
  destruct (second_phase_globals_fields sys0' b k) as (Hsid & Hin & Hup & _).
  cbv zeta in *. rewrite Hmsg, Hsid, show_loads. unfold chosen_message.
  destruct (loaded_fields sysS surface (strip_eol (c_str rid)) (strip_eol (c_str exe)) p
              (second_phase_globals sys0' b k)) as (Hp & _).
  cbv zeta in Hp. rewrite Hp, Hup.
  assert (Hmode : g_inputMode (loaded sysS surface (strip_eol (c_str rid))
                                 (strip_eol (c_str exe)) p
                                 (second_phase_globals sys0' b k)) = b).
  { rewrite <- show_loads.
    destruct (LoadState_frame sysS fs1 k (second_phase_globals sys0' b k)) as (E & _).
    cbv zeta in E. by rewrite E. }
  rewrite Hmode. destruct p; reflexivity.
Qed.

(** C10 (amended).  [SaveState] writes the prompt as it is, newlines
    included, as the fourth line; [LoadState] reads that line once.  So
    the show process loads the first line of the prompt, which is the text
    before its first newline, with its trailing carriage returns removed,
    displays it normalised (or the default message of its mode when it is
    empty), and the loaded prompt never holds a newline. *)
Theorem newline_round_trip :
  fs1 !! path = Some ((print_lld surface ++ [WLF]) ++ (c_str rid ++ [WLF]) ++
                      (c_str exe ++ [WLF]) ++ (c_str t ++ [WLF])) /\
  g_userPrompt (LoadState sysS fs1 k (second_phase_globals sys0' b k)) =
    strip_eol (first_line (c_str t)) /\
  (forall pre post, t = pre ++ WLF :: post -> no_nul pre -> no_newline pre ->
     first_line (c_str t) = pre) /\
  g_message (prepare_notification sysS fs1 (second_phase_globals sys0' b k)) =
    truncate_with_ellipsis
      (replace_newlines (if bool_decide (p = []) then default_message b else p)) /\
  no_newline (g_userPrompt (LoadState sysS fs1 k (second_phase_globals sys0' b k))).
Proof.
  split; [apply record_writes|]. split; [|split; [|split]].
  - rewrite show_loads.
    destruct (loaded_fields sysS surface (strip_eol (c_str rid)) (strip_eol (c_str exe)) p
                (second_phase_globals sys0' b k)) as (Hp & _).
    cbv zeta in Hp. rewrite Hp.
    destruct (second_phase_globals_fields sys0' b k) as (_ & _ & Hup & _).
    cbv zeta in Hup. rewrite Hup. by destruct p.
  - intros pre post -> Hn Hl. by apply first_line_prefix.
  - apply show_message.
  - apply LoadState_no_newline.
    destruct (second_phase_globals_fields sys0' b k) as (_ & _ & Hup & _).
    cbv zeta in Hup. rewrite Hup. constructor.
Qed.


End RoundTrip.

(** Side conditions on concrete texts are decided by evaluation. *)
Ltac decide_text :=
  lazymatch goal with
  | |- _ /\ _ => split; decide_text
  | |- (_ < _)%nat => apply Nat.ltb_lt; by vm_compute
  | |- (_ <= _)%nat => apply Nat.leb_le; by vm_compute
  | |- _ => unfold no_nul, no_newline, single_line;
            apply (bool_decide_unpack _); by vm_compute
  end.

Lemma newline_round_trip_witness :
  let stdin := json_payload "abc" (L "first line\nsecond line") in
  let fs1 := (SaveState desk_system stdin (started desk_system) ∅).2 in
  g_userPrompt (LoadState desk_system fs1 (L "abc")
                  (second_phase_globals desk_system false (L "abc")))
  = L "first line".
Proof.
  intros stdin fs1.
  destruct (newline_round_trip desk_system desk_system desk_system desk_system
              stdin ∅ false) as (_ & H & _ & _ & _);
    [by vm_compute | by vm_compute | by vm_compute | by vm_compute
    | decide_text | decide_text | decide_text | exact H].
Defined.

(** C10, as stated, fails for a prompt that starts with a newline: the text
    up to the first newline is empty, the message is the default one. *)
Lemma leading_newline_shows_default :
  let stdin := json_payload "abc" (L "\nfix it") in
  let t := ExtractJsonStringValue desk_system stdin "prompt" in
  let fs1 := (SaveState desk_system stdin (started desk_system) ∅).2 in
  t = WLF :: L "fix it" /\ first_line t = [] /\
  WinMain desk_system desk_system (Some record_argv) stdin [] ∅ = Some (mkExit 0 fs1 []) /\
  g_message (prepare_notification desk_system fs1
               (second_phase_globals desk_system false (L "abc")))
  = L "Task completed".
Proof.
  intros stdin t fs1. split; [by vm_compute|]. split; [by vm_compute|].
  split; [apply WinMain_record | by vm_compute].
Qed.



(** ** Invocations without a session key *)

(** C6 (amended).  When the payload yields no session key, the show
    invocations (the notify and input hooks, and a second-phase process
    started without a key) exit with code 1 and leave the store and the
    system untouched, and the record invocation writes no state file.  An
    absent payload yields no key. *)
Theorem missing_session_key (sys0 sys : System) (stdin : list N)
    (msgs : list (System * (Z * Z * Z))) (fs : FS) :
  ExtractJsonStringValue sys stdin "session_id" = [] ->
  (forall prog, WinMain sys0 sys (Some [prog; L "--notify"]) stdin msgs fs
                = Some (mkExit 1 fs [])) /\
  (forall prog, WinMain sys0 sys (Some [prog; L "--input"]) stdin msgs fs
                = Some (mkExit 1 fs [])) /\
  (forall prog, WinMain sys0 sys (Some [prog; L "--notify-show"]) stdin msgs fs
                = Some (mkExit 1 fs [])) /\
  (forall b, WinMain sys0 sys (Some (second_phase_argv b [])) stdin msgs fs
             = Some (mkExit 1 fs [])) /\
  (exists e, WinMain sys0 sys (Some record_argv) stdin msgs fs = Some e /\
             exit_fs e = fs /\ exit_log e = []) /\
  ExtractJsonStringValue sys [] "session_id" = [].
Proof.
  intros Hk. split; [|split; [|split; [|split; [|split]]]].
  - intros prog. unfold WinMain. cbn [tail parse_arguments].
    change (bool_decide (L "--notify" = L "--save")) with false.
    change (bool_decide (L "--notify" = L "--notify")) with true.
    cbv iota. cbn [saveMode notifyMode g_sessionId set_g_sessionId].
    by rewrite Hk.
  - intros prog. unfold WinMain. cbn [tail parse_arguments].
    change (bool_decide (L "--input" = L "--save")) with false.
    change (bool_decide (L "--input" = L "--notify")) with false.
    change (bool_decide (L "--input" = L "--input")) with true.
    cbv iota. cbn [saveMode notifyMode inputMode g_sessionId set_g_sessionId].
    by rewrite Hk.
  - intros prog. reflexivity.
  - intros b. by rewrite WinMain_second_phase.
  - eexists. split; [apply WinMain_record|]. cbn [exit_fs exit_log].
    split; [|done]. rewrite SaveState_fs. cbv zeta. by rewrite Hk.
  - reflexivity.
Qed.

Lemma missing_session_key_witness :
  WinMain quiet_system quiet_system (Some [L "ToastWindow.exe"; L "--notify"])
          (L "{}") [] ∅ = Some (mkExit 1 ∅ []).
Proof.
  apply (missing_session_key quiet_system quiet_system (L "{}") [] ∅).
  by vm_compute.
Defined.

(** C6, as stated, fails for a malformed payload from which a session key
    can still be read: the record invocation given a payload cut off in
    the middle of the prompt writes the state file and exits with 0. *)
Lemma cut_off_payload_is_recorded :
  let stdin := L "{" ++ [34%N] ++ L "session_id" ++ [34%N] ++ L ":" ++ [34%N] ++
               L "abc" ++ [34%N] ++ L "," ++ [34%N] ++ L "prompt" ++ [34%N] ++
               L ":" ++ [34%N] ++ L "fix the te" in
  exists e, WinMain desk_system desk_system (Some record_argv) stdin [] ∅ = Some e /\
    exit_code e = 0 /\
    exit_fs e !! L "C:/Temp/claude-notify-abc.txt" =
      Some (L "4242" ++ [WLF] ++ [WLF] ++ L "C:/apps/Code.exe" ++ [WLF] ++
            L "fix the te" ++ [WLF]).
Proof.
  intros stdin. eexists. split; [apply WinMain_record|]. split; [done|].
  by vm_compute.
Qed.
